(** * Bayesian meta-training driver of tensor2struct (spider_dg)

    A shallow embedding of [experiments/spider_dg/bayesian_meta_train.py]:
    the three methods of [BayesianMetaTrainer] ([load_train_config],
    [load_optimizer] and [step]) written as programs of a small monad that
    threads the mutable objects, collects the calls made on the external
    interfaces (logger, registry, data scheduler, BMAML trainer, torch
    optimizer, learning-rate scheduler, wandb) and propagates Python
    exceptions.

    Numbers of the configuration and of the training run (learning rates,
    losses, the clipping norm, tensor entries) are finite floats that the
    driver only moves around and tests against zero; they are read as
    rationals. *)

From Stdlib Require Import List ZArith QArith Bool String Lia PeanoNat.
From Stdlib Require Import DecimalString DecimalNat FinFun.
Import ListNotations.

Local Open Scope string_scope.
Local Open Scope list_scope.
Local Open Scope Z_scope.

Set Implicit Arguments.

(** ** Exceptions, results and the driver monad *)

Inductive exn : Type :=
| AssertionError
| ZeroDivisionError
| UnboundLocalError.

Inductive result (A : Type) : Type :=
| Ok (a : A)
| Raise (e : exn).

Arguments Ok {A} a.
Arguments Raise {A} e.

(** A computation over a store [S] that emits events of type [Ev]: it
    returns its outcome, the store it leaves behind and the events it
    emitted, oldest first.  What was mutated and emitted before an
    exception stays mutated and emitted. *)
Definition M (S Ev A : Type) : Type := S -> result A * S * list Ev.

Section Monad.
Context {S Ev : Type}.

Definition ret {A} (a : A) : M S Ev A := fun s => (Ok a, s, []).

Definition bind {A B} (m : M S Ev A) (f : A -> M S Ev B) : M S Ev B :=
  fun s =>
    let '(r, s1, t1) := m s in
    match r with
    | Ok a => let '(r2, s2, t2) := f a s1 in (r2, s2, t1 ++ t2)
    | Raise e => (Raise e, s1, t1)
    end.

Definition raise {A} (e : exn) : M S Ev A := fun s => (Raise e, s, []).
Definition gets {A} (f : S -> A) : M S Ev A := fun s => (Ok (f s), s, []).
Definition modify (f : S -> S) : M S Ev unit := fun s => (Ok tt, f s, []).
Definition emit (e : Ev) : M S Ev unit := fun s => (Ok tt, s, [e]).

(** [assert c] of Python. *)
Definition assert (c : bool) : M S Ev unit :=
  if c then ret tt else raise AssertionError.

(** [for x in xs: body x]. *)
Fixpoint for_each {A} (xs : list A) (body : A -> M S Ev unit) : M S Ev unit :=
  match xs with
  | [] => ret tt
  | x :: xs' => bind (body x) (fun _ => for_each xs' body)
  end.

Definition outcome {A} (x : result A * S * list Ev) : result A := fst (fst x).
Definition final {A} (x : result A * S * list Ev) : S := snd (fst x).
Definition emitted {A} (x : result A * S * list Ev) : list Ev := snd x.
End Monad.

Notation "x <- c1 ;; c2" := (bind c1 (fun x => c2))
  (at level 61, c1 at next level, right associativity).
Notation "c1 ;; c2" := (bind c1 (fun _ => c2))
  (at level 61, right associativity).

(** ** Configuration *)

(** The fields of [MetaTrainConfig] that the driver reads.  All but
    [use_bert_training] are inherited from the parent configuration. *)
Record inner_opt_config : Type := {
  lr : Q                                  (* inner_opt["lr"] *)
}.

Record MetaTrainConfig : Type := {
  num_batch_accumulated : Z;
  clip_grad : option Q;                   (* None when no threshold is set *)
  report_every_n : Z;
  inner_lr : Q;
  first_order : bool;
  num_particles : Z;
  inner_opt : inner_opt_config;
  use_bert_training : bool
}.

(** Truth value of [clip_grad] in a condition: [None] and zero are false. *)
Definition truthy (c : option Q) : bool :=
  match c with
  | None => false
  | Some q => negb (Qnum q =? 0)
  end.

(** ** Logger and tracker messages *)

Inductive message : Type :=
| Text (s : string)
| StepLoss (step : Z) (loss : Q)                 (* "Step {}: loss={:.4f}" *)
| StepLr (step : Z) (inner : Q) (outer : list Q). (* "Step {}, lr={...}" *)

Inductive log_event : Type :=
| LoggerWarn (m : message)
| LoggerInfo (m : message).

(** ** [load_train_config] *)

Definition warn_accumulation : string :=
  "Batch accumulation is used only at MAML-step level".
Definition recommend_clipping : string :=
  "Gradient clipping is recommended for BERT training".

(** The trainer's attribute [train_config]; [None] before it is loaded. *)
Definition trainer : Type := option MetaTrainConfig.

(** [tc] is what [registry.instantiate(MetaTrainConfig, ...)] returned. *)
Definition load_train_config (tc : MetaTrainConfig) : M trainer log_event unit :=
  modify (fun _ => Some tc) ;;
  (if 1 <? num_batch_accumulated tc
   then emit (LoggerWarn (Text warn_accumulation))
   else ret tt) ;;
  (if use_bert_training tc
   then match clip_grad tc with
        | None => emit (LoggerInfo (Text recommend_clipping))
        | Some _ => ret tt
        end
   else ret tt).

(** ** Objects shared between the model, the optimizer and the scheduler *)

Definition pid : Type := nat.   (* identity of a parameter object *)
Definition gref : Type := nat.  (* identity of a parameter-group dict *)
Definition loc : Type := nat.   (* address of a list object *)

(** What the model's accessors return, as lists of parameter objects. *)
Record model_view : Type := {
  parameters : list pid;                  (* list(self.model.parameters()) *)
  get_bert_parameters : list pid;
  get_non_bert_parameters : list pid;
  get_trainable_parameters : list pid
}.

(** Registry specifications are dicts of settings. *)
Inductive setting : Type :=
| SStr (s : string)
| SNum (q : Q).

Definition spec : Type := list (string * setting).

Record run_config : Type := {
  cfg_optimizer : spec;                   (* config["optimizer"] *)
  cfg_lr_scheduler : option spec          (* config.get("lr_scheduler") *)
}.

(** [config.get("lr_scheduler", {"name": "noop"})]. *)
Definition lr_scheduler_spec (config : run_config) : spec :=
  match cfg_lr_scheduler config with
  | Some s => s
  | None => [("name", SStr "noop")]
  end.

(** The keyword arguments given to the optimizer's constructor. *)
Inductive optimizer_args : Type :=
| BertSplit (non_bert_params bert_params : list pid)
| Params (params : list pid).

(** The attributes of the outer optimizer that the driver reads: its list
    of parameter groups (a list object, by address) and, for the
    optimizers of BERT training, its two groups. *)
Record optimizer : Type := {
  param_groups : loc;
  non_bert_param_group : gref;
  bert_param_group : gref
}.

(** A scheduler is the registered class applied to its specification and
    to the list object it is given as [param_groups]. *)
Record lr_scheduler : Type := {
  sched_spec : spec;
  sched_param_groups : loc
}.

Record maml_trainer : Type := {
  maml_inner_lr : Q;
  maml_first_order : bool;
  maml_num_particles : Z
}.

(** The list objects alive during construction, by address. *)
Definition heap : Type := list (list gref).

Inductive build_event : Type :=
| NewBMAML (m : maml_trainer)
| ToDevice
| InfoParamCounts (bert non_bert : nat)
| ConstructOptimizer (s : spec) (args : optimizer_args)
| ConstructScheduler (s : lr_scheduler).

Notation "' pat <- c1 ;; c2" :=
  (bind c1 (fun x => match x with pat => c2 end))
  (at level 61, pat pattern, c1 at next level, right associativity).

(** ** [load_optimizer] *)

Section Construction.
(** The registered optimizer classes: they allocate their own list of
    parameter groups.  Registry constructions are taken to return, and
    the run configuration to hold an [optimizer] entry; a construction
    that raises ends [load_optimizer] at that call and is not covered
    here. *)
Variable construct_optimizer : spec -> optimizer_args -> heap -> optimizer * heap.

Definition registry_construct_optimizer (s : spec) (args : optimizer_args)
  : M heap build_event optimizer :=
  fun h => let '(o, h') := construct_optimizer s args h in
           (Ok o, h', [ConstructOptimizer s args]).

Definition registry_construct_lr_scheduler (s : spec) (groups : loc)
  : M heap build_event lr_scheduler :=
  let sch := {| sched_spec := s; sched_param_groups := groups |} in
  emit (ConstructScheduler sch) ;; ret sch.

(** A list display [[a, b]] allocates a new list object. *)
Definition new_list (items : list gref) : M heap build_event loc :=
  fun h => (Ok (List.length h), h ++ [items], []).

Definition load_optimizer (tc : MetaTrainConfig) (model : model_view)
           (config : run_config)
  : M heap build_event (maml_trainer * optimizer * lr_scheduler) :=
  let maml := {| maml_inner_lr := inner_lr tc;
                 maml_first_order := first_order tc;
                 maml_num_particles := num_particles tc |} in
  emit (NewBMAML maml) ;;
  emit ToDevice ;;
  '(optimizer, lr_scheduler) <-
    (if use_bert_training tc then
       let bert_params := get_bert_parameters model in
       let non_bert_params := get_non_bert_parameters model in
       assert (Nat.eqb (List.length non_bert_params + List.length bert_params)
                       (List.length (parameters model))) ;;
       assert (Nat.ltb 0 (List.length bert_params)) ;;
       emit (InfoParamCounts (List.length bert_params)
                             (List.length non_bert_params)) ;;
       optimizer <- registry_construct_optimizer
                      (cfg_optimizer config)
                      (BertSplit non_bert_params bert_params) ;;
       pair_list <- new_list [non_bert_param_group optimizer;
                              bert_param_group optimizer] ;;
       lr_scheduler <- registry_construct_lr_scheduler
                         (lr_scheduler_spec config) pair_list ;;
       ret (optimizer, lr_scheduler)
     else
       optimizer <- registry_construct_optimizer
                      (cfg_optimizer config)
                      (Params (get_trainable_parameters model)) ;;
       lr_scheduler <- registry_construct_lr_scheduler
                         (lr_scheduler_spec config) (param_groups optimizer) ;;
       ret (optimizer, lr_scheduler)) ;;
  lr_scheduler <- registry_construct_lr_scheduler
                    (lr_scheduler_spec config) (param_groups optimizer) ;;
  ret (maml, optimizer, lr_scheduler).
End Construction.

(** ** Tensors, parameters and parameter groups *)

Record tensor : Type := {
  shape : list nat;
  entries : list Q
}.

(** [torch.zeros_like]: same shape, every entry zero. *)
Definition zeros_like (t : tensor) : tensor :=
  {| shape := shape t;
     entries := repeat 0%Q (fold_right Nat.mul 1%nat (shape t)) |}.

Record parameter : Type := {
  data : tensor;
  grad : option tensor                    (* p.grad, None when unset *)
}.

Record param_group : Type := {
  params : list pid;                      (* param_group["params"] *)
  g_lr : Q                                (* param_group["lr"] *)
}.

(** Python's [enumerate]. *)
Definition enumerate {A : Type} (xs : list A) : list (nat * A) :=
  combine (seq 0 (List.length xs)) xs.

(** ** The world of a training step *)

(** The mutable objects a step works on: the model's parameter objects
    (indexed by identity), [optimizer.param_groups], and the state [E] of
    the external components (data scheduler, BMAML trainer, optimizer
    moments, scheduler). *)
Record world (E : Type) : Type := {
  model_parameters : list parameter;
  groups : list param_group;
  ext : E
}.

Arguments Build_world {E} _ _ _.
Arguments model_parameters {E} _.
Arguments groups {E} _.
Arguments ext {E} _.

(** The calls a step makes on its collaborators. *)
Inductive event (batch : Type) : Type :=
| GetBatch (step : Z)
| MetaTrain (inner : batch) (outer : list batch) (loss : Q)
| ClipGradNorm (ps : list pid) (max_norm : Q)
| OptimizerStep
| ZeroGrad
| UpdateLr (step : Z)
| Log (e : log_event)
| WandbLog (key : string) (value : Q) (step : Z).

Arguments GetBatch {batch} _.
Arguments MetaTrain {batch} _ _ _.
Arguments ClipGradNorm {batch} _ _.
Arguments OptimizerStep {batch}.
Arguments ZeroGrad {batch}.
Arguments UpdateLr {batch} _.
Arguments Log {batch} _.
Arguments WandbLog {batch} _ _ _.

(** The external interfaces, as functions of the objects they may touch.
    Their calls are taken to return: an exception of a collaborator ends
    the step at that call and is not covered here. *)
Record externals (E batch : Type) : Type := {
  (* train_data_scheduler.get_batch(last_step) *)
  get_batch : Z -> E -> (batch * list batch) * E;
  (* maml_trainer.meta_train(model, enc, ali, dec, inner, outer, inner_opt)["loss"] *)
  meta_train :
    list pid -> list pid -> list pid -> batch -> list batch ->
    inner_opt_config -> list parameter -> E -> Q * list parameter * E;
  (* torch.nn.utils.clip_grad_norm_(params, max_norm) *)
  clip_grad_norm_ : list pid -> Q -> list parameter -> list parameter;
  (* optimizer.step() *)
  optimizer_step : list param_group -> list parameter -> E -> list parameter * E;
  (* optimizer.zero_grad() *)
  optimizer_zero_grad : list param_group -> list parameter -> list parameter;
  (* lr_scheduler.update_lr(last_step) *)
  update_lr : Z -> list param_group -> E -> option (list Q) * list param_group * E
}.

(** ** [step] *)

Section Step.
Context {E batch : Type} (X : externals E batch).

Definition Step (A : Type) : Type := M (world E) (event batch) A.

Definition call_get_batch (last_step : Z) : Step (batch * list batch) :=
  fun w => let '(task, e') := get_batch X last_step (ext w) in
           (Ok task,
            {| model_parameters := model_parameters w;
               groups := groups w; ext := e' |},
            [GetBatch last_step]).

Definition call_meta_train (enc ali dec : list pid) (inner : batch)
           (outer : list batch) (io : inner_opt_config) : Step Q :=
  fun w => let '(loss, ps', e') :=
             meta_train X enc ali dec inner outer io (model_parameters w) (ext w) in
           (Ok loss,
            {| model_parameters := ps'; groups := groups w; ext := e' |},
            [MetaTrain inner outer loss]).

Definition call_clip_grad_norm_ (ps : list pid) (max_norm : Q) : Step unit :=
  fun w => (Ok tt,
            {| model_parameters := clip_grad_norm_ X ps max_norm (model_parameters w);
               groups := groups w; ext := ext w |},
            [ClipGradNorm ps max_norm]).

Definition call_optimizer_step : Step unit :=
  fun w => let '(ps', e') := optimizer_step X (groups w) (model_parameters w) (ext w) in
           (Ok tt,
            {| model_parameters := ps'; groups := groups w; ext := e' |},
            [OptimizerStep]).

Definition call_optimizer_zero_grad : Step unit :=
  fun w => (Ok tt,
            {| model_parameters := optimizer_zero_grad X (groups w) (model_parameters w);
               groups := groups w; ext := ext w |},
            [ZeroGrad]).

Definition call_update_lr (last_step : Z) : Step (option (list Q)) :=
  fun w => let '(r, gs', e') := update_lr X last_step (groups w) (ext w) in
           (Ok r,
            {| model_parameters := model_parameters w; groups := gs'; ext := e' |},
            [UpdateLr last_step]).

Definition logger_info (m : message) : Step unit := emit (Log (LoggerInfo m)).
Definition wandb_log (key : string) (value : Q) (step : Z) : Step unit :=
  emit (WandbLog key value step).

(** Lines 116-118: give every parameter without gradient a zero one. *)
Definition zero_unset_grad (p : parameter) : parameter :=
  match grad p with
  | None => {| data := data p; grad := Some (zeros_like (data p)) |}
  | Some _ => p
  end.

Definition init_grads : Step unit :=
  modify (fun w => {| model_parameters := map zero_unset_grad (model_parameters w);
                      groups := groups w; ext := ext w |}).

(** Lines 120-132: the accumulation loop.  [loss] is the local variable of
    that name, [None] while it is unbound; [k] iterations remain
    ([range(n)] is empty for [n <= 0]). *)
Fixpoint accumulate (tc : MetaTrainConfig) (last_step : Z)
         (enc ali dec : list pid) (k : nat) (loss : option Q)
  : Step (option Q) :=
  match k with
  | O => ret loss
  | S k' =>
      '(inner_batch, outer_batches) <- call_get_batch last_step ;;
      l <- call_meta_train enc ali dec inner_batch outer_batches (inner_opt tc) ;;
      accumulate tc last_step enc ali dec k' (Some l)
  end.

(** Lines 134-139. *)
Definition clip_bert_grad (tc : MetaTrainConfig) : Step unit :=
  if truthy (clip_grad tc) && use_bert_training tc then
    match clip_grad tc with
    | Some c =>
        gs <- gets groups ;;
        for_each gs (fun param_group => call_clip_grad_norm_ (params param_group) c)
    | None => ret tt
    end
  else ret tt.

(** Lines 145-147: the rates that will be reported. *)
Definition log_lr (last_step : Z) : Step (list Q) :=
  outer_lr <- call_update_lr last_step ;;
  match outer_lr with
  | None => gs <- gets groups ;; ret (map g_lr gs)
  | Some rates => ret rates
  end.

(** [f"outer_lr_{idx}"]. *)
Definition outer_lr_key (idx : nat) : string :=
  String.append "outer_lr_" (NilEmpty.string_of_uint (Nat.to_uint idx)).

(** [for idx, lr in enumerate(outer_lr): wandb.log(...)]. *)
Definition log_outer_lrs (outer_lr : list Q) (last_step : Z) : Step unit :=
  for_each (enumerate outer_lr)
           (fun '(idx, r) => wandb_log (outer_lr_key idx) r last_step).

(** Lines 151-157.  Reading the unbound local [loss] raises. *)
Definition report (tc : MetaTrainConfig) (last_step : Z)
           (loss : option Q) (outer_lr : list Q) : Step unit :=
  if report_every_n tc =? 0 then raise ZeroDivisionError
  else if last_step mod report_every_n tc =? 0 then
    loss <- match loss with
            | Some l => ret l
            | None => raise UnboundLocalError
            end ;;
    logger_info (StepLoss last_step loss) ;;
    logger_info (StepLr last_step (lr (inner_opt tc)) outer_lr) ;;
    wandb_log "train_loss" loss last_step ;;
    wandb_log "inner_lr" (lr (inner_opt tc)) last_step ;;
    log_outer_lrs outer_lr last_step
  else ret tt.

(** The part of [step] that precedes the learning-rate update (lines
    116-143); it hands over the local [loss]. *)
Definition train_and_update (tc : MetaTrainConfig) (last_step : Z)
           (enc ali dec : list pid) : Step (option Q) :=
  init_grads ;;
  loss <- accumulate tc last_step enc ali dec
                     (Z.to_nat (num_batch_accumulated tc)) None ;;
  clip_bert_grad tc ;;
  call_optimizer_step ;;
  call_optimizer_zero_grad ;;
  ret loss.

Definition step (tc : MetaTrainConfig) (last_step : Z)
           (model_encoder_params model_aligner_params model_decoder_params : list pid)
  : Step unit :=
  init_grads ;;
  loss <- accumulate tc last_step model_encoder_params model_aligner_params
                     model_decoder_params
                     (Z.to_nat (num_batch_accumulated tc)) None ;;
  clip_bert_grad tc ;;
  call_optimizer_step ;;
  call_optimizer_zero_grad ;;
  outer_lr <- log_lr last_step ;;
  report tc last_step loss outer_lr.

End Step.

Arguments Step E batch A : clear implicits.

(** ** Reading a trace *)

Section Traces.
Context {batch : Type}.

Definition is_get_batch (e : event batch) : bool :=
  match e with GetBatch _ => true | _ => false end.
Definition is_meta_train (e : event batch) : bool :=
  match e with MetaTrain _ _ _ => true | _ => false end.
Definition is_clip (e : event batch) : bool :=
  match e with ClipGradNorm _ _ => true | _ => false end.
Definition is_optimizer_step (e : event batch) : bool :=
  match e with OptimizerStep => true | _ => false end.
Definition is_zero_grad (e : event batch) : bool :=
  match e with ZeroGrad => true | _ => false end.
Definition is_update_lr (e : event batch) : bool :=
  match e with UpdateLr _ => true | _ => false end.
Definition is_wandb (e : event batch) : bool :=
  match e with WandbLog _ _ _ => true | _ => false end.

(** Logger and tracker events. *)
Definition is_report (e : event batch) : bool :=
  match e with Log _ | WandbLog _ _ _ => true | _ => false end.

(** How often events of one kind occur. *)
Definition count (p : event batch -> bool) (t : list (event batch)) : nat :=
  List.length (filter p t).

(** The trace of [k] accumulation iterations at step [last_step]: each
    fetches a task and then trains on one. *)
Inductive acc_trace (last_step : Z) : nat -> list (event batch) -> Prop :=
| acc_done : acc_trace last_step 0 []
| acc_iter : forall k inner outer loss t,
    acc_trace last_step k t ->
    acc_trace last_step (S k)
              (GetBatch last_step :: MetaTrain inner outer loss :: t).

(** The loss returned by the last bi-level training call of a trace. *)
Fixpoint last_loss (t : list (event batch)) : option Q :=
  match t with
  | [] => None
  | e :: t' =>
      match last_loss t' with
      | Some l => Some l
      | None => match e with MetaTrain _ _ l => Some l | _ => None end
      end
  end.

(** The clipping calls of a step on the groups [gs]. *)
Definition clip_calls (tc : MetaTrainConfig) (gs : list param_group)
  : list (event batch) :=
  match clip_grad tc with
  | Some c =>
      if negb (Qnum c =? 0) && use_bert_training tc
      then map (fun g => ClipGradNorm (params g) c) gs
      else []
  | None => []
  end.

(** What a reporting step sends to the tracker. *)
Definition tracked (tc : MetaTrainConfig) (last_step : Z) (loss : Q)
           (outer_lr : list Q) : list (event batch) :=
  WandbLog "train_loss" loss last_step
  :: WandbLog "inner_lr" (lr (inner_opt tc)) last_step
  :: map (fun '(idx, r) => WandbLog (outer_lr_key idx) r last_step)
         (enumerate outer_lr).
End Traces.

Definition schedulers_built (t : list build_event) : list lr_scheduler :=
  flat_map (fun e => match e with ConstructScheduler s => [s] | _ => [] end) t.

Definition optimizers_built (t : list build_event) : nat :=
  List.length (filter (fun e => match e with ConstructOptimizer _ _ => true
                                        | _ => false end) t).

Definition warnings (t : list log_event) : list message :=
  flat_map (fun e => match e with LoggerWarn m => [m] | _ => [] end) t.

Definition infos (t : list log_event) : list message :=
  flat_map (fun e => match e with LoggerInfo m => [m] | _ => [] end) t.

(** ** Sample configurations and collaborators *)

Definition sample_config : MetaTrainConfig :=
  {| num_batch_accumulated := 3;
     clip_grad := Some (1 # 1)%Q;
     report_every_n := 5;
     inner_lr := (1 # 1000)%Q;
     first_order := true;
     num_particles := 2;
     inner_opt := {| lr := (1 # 100)%Q |};
     use_bert_training := true |}.

(** The same, without BERT training. *)
Definition plain_config : MetaTrainConfig :=
  {| num_batch_accumulated := 3;
     clip_grad := Some (1 # 1)%Q;
     report_every_n := 5;
     inner_lr := (1 # 1000)%Q;
     first_order := true;
     num_particles := 2;
     inner_opt := {| lr := (1 # 100)%Q |};
     use_bert_training := false |}.

(** BERT training without a clipping threshold. *)
Definition unclipped_config : MetaTrainConfig :=
  {| num_batch_accumulated := 1;
     clip_grad := None;
     report_every_n := 5;
     inner_lr := (1 # 1000)%Q;
     first_order := true;
     num_particles := 2;
     inner_opt := {| lr := (1 # 100)%Q |};
     use_bert_training := true |}.

(** No accumulation iteration at all. *)
Definition idle_config : MetaTrainConfig :=
  {| num_batch_accumulated := 0;
     clip_grad := None;
     report_every_n := 5;
     inner_lr := (1 # 1000)%Q;
     first_order := true;
     num_particles := 2;
     inner_opt := {| lr := (1 # 100)%Q |};
     use_bert_training := false |}.

Definition sample_model : model_view :=
  {| parameters := [0; 1; 2]%nat;
     get_bert_parameters := [0; 1]%nat;
     get_non_bert_parameters := [2]%nat;
     get_trainable_parameters := [0; 1; 2]%nat |}.

(** A model whose two subsets miss a parameter. *)
Definition leaky_model : model_view :=
  {| parameters := [0; 1; 2]%nat;
     get_bert_parameters := [0]%nat;
     get_non_bert_parameters := [2]%nat;
     get_trainable_parameters := [0; 1; 2]%nat |}.

(** A model without BERT parameters. *)
Definition bertless_model : model_view :=
  {| parameters := [0; 1; 2]%nat;
     get_bert_parameters := [];
     get_non_bert_parameters := [0; 1; 2]%nat;
     get_trainable_parameters := [0; 1; 2]%nat |}.

Definition sample_run_config : run_config :=
  {| cfg_optimizer := [("name", SStr "bertAdamw")];
     cfg_lr_scheduler := None |}.

(** An optimizer class that stores its groups in a new list object. *)
Definition sample_construct_optimizer (s : spec) (args : optimizer_args)
           (h : heap) : optimizer * heap :=
  ({| param_groups := List.length h;
      non_bert_param_group := 0%nat;
      bert_param_group := 1%nat |},
   h ++ [match args with
         | BertSplit _ _ => [0; 1]%nat
         | Params _ => [0]%nat
         end]).

Definition sample_tensor : tensor :=
  {| shape := [2; 3]%nat; entries := repeat (1 # 2)%Q 6 |}.

(** Two groups over three parameters, one of which has no gradient yet;
    the external state is a call counter. *)
Definition sample_world : world nat :=
  {| model_parameters :=
       [ {| data := sample_tensor; grad := None |};
         {| data := sample_tensor; grad := Some sample_tensor |};
         {| data := sample_tensor; grad := None |} ];
     groups := [ {| params := [2]%nat; g_lr := (1 # 1000)%Q |};
                 {| params := [0; 1]%nat; g_lr := (2 # 100000)%Q |} ];
     ext := 0%nat |}.

(** Collaborators whose training call returns the value of the counter as
    its loss, and whose scheduler reports nothing. *)
Definition sample_externals : externals nat nat :=
  {| get_batch := fun k e => ((e, [e; S e]), e);
     meta_train := fun _ _ _ _ _ _ ps e => (inject_Z (Z.of_nat e), ps, S e);
     clip_grad_norm_ := fun _ _ ps => ps;
     optimizer_step := fun _ ps e => (ps, e);
     optimizer_zero_grad :=
       fun _ ps => map (fun p => {| data := data p; grad := None |}) ps;
     update_lr := fun _ gs e => (None, gs, e) |}.

(** The same with a scheduler that reports the rate it has set. *)
Definition reporting_externals : externals nat nat :=
  {| get_batch := get_batch sample_externals;
     meta_train := meta_train sample_externals;
     clip_grad_norm_ := clip_grad_norm_ sample_externals;
     optimizer_step := optimizer_step sample_externals;
     optimizer_zero_grad := optimizer_zero_grad sample_externals;
     update_lr := fun k gs e =>
       (Some [(1 # 10)%Q],
        map (fun g => {| params := params g; g_lr := (1 # 10)%Q |}) gs, e) |}.

(** ** Further readings of a trace *)

(** The logger calls of a step, in order. *)
Definition logged {batch : Type} (t : list (event batch)) : list log_event :=
  flat_map (fun e => match e with Log l => [l] | _ => [] end) t.

(** The keys under which a trace writes to the tracker, in order. *)
Definition tracker_keys {batch : Type} (t : list (event batch)) : list string :=
  flat_map (fun e => match e with WandbLog k _ _ => [k] | _ => [] end) t.

(** The optimizer constructions of a trace, with their arguments. *)
Definition optimizer_calls (t : list build_event) : list (spec * optimizer_args) :=
  flat_map (fun e => match e with
                     | ConstructOptimizer s args => [(s, args)]
                     | _ => []
                     end) t.

(** The parameter counts written to the log, BERT count first. *)
Definition param_counts_logged (t : list build_event) : list (nat * nat) :=
  flat_map (fun e => match e with
                     | InfoParamCounts b nb => [(b, nb)]
                     | _ => []
                     end) t.

(** The parameter objects after the clipping calls on the groups [gs],
    each call working on what the one before left. *)
Definition clipped {E batch : Type} (X : externals E batch) (c : Q)
           (gs : list param_group) (ps : list parameter) : list parameter :=
  fold_left (fun ps' g => clip_grad_norm_ X (params g) c ps') gs ps.

(** BERT training with a threshold of zero. *)
Definition zero_clip_config : MetaTrainConfig :=
  {| num_batch_accumulated := 1;
     clip_grad := Some (0 # 1)%Q;
     report_every_n := 5;
     inner_lr := (1 # 1000)%Q;
     first_order := true;
     num_particles := 2;
     inner_opt := {| lr := (1 # 100)%Q |};
     use_bert_training := true |}.

(** A reporting interval of zero. *)
Definition zero_interval_config : MetaTrainConfig :=
  {| num_batch_accumulated := 2;
     clip_grad := None;
     report_every_n := 0;
     inner_lr := (1 # 1000)%Q;
     first_order := true;
     num_particles := 2;
     inner_opt := {| lr := (1 # 100)%Q |};
     use_bert_training := false |}.

(** ** The accumulation loop, read from the collaborators *)

(** [iterations X tc last_step enc ali dec k w lin t lout w'] holds when
    [k] iterations take the world [w] to [w'] with the calls [t] and take
    the local [loss] from [lin] to [lout]: every iteration fetches the
    task of [last_step] from the data scheduler as the iteration before
    left it, trains on that very task and on the parameters as they are,
    and binds [loss] to the loss the training call returned. *)
Inductive iterations {E batch : Type} (X : externals E batch)
          (tc : MetaTrainConfig) (last_step : Z) (enc ali dec : list pid)
  : nat -> world E -> option Q -> list (event batch) -> option Q -> world E -> Prop :=
| iterations_done : forall w lin,
    iterations X tc last_step enc ali dec 0 w lin [] lin w
| iterations_next : forall k w lin inner outer e1 l ps e2 t lout w',
    get_batch X last_step (ext w) = ((inner, outer), e1) ->
    meta_train X enc ali dec inner outer (inner_opt tc) (model_parameters w) e1
      = (l, ps, e2) ->
    iterations X tc last_step enc ali dec k
               {| model_parameters := ps; groups := groups w; ext := e2 |}
               (Some l) t lout w' ->
    iterations X tc last_step enc ali dec (S k) w lin
               (GetBatch last_step :: MetaTrain inner outer l :: t) lout w'.

(** The parameter objects after the clipping phase of a step. *)
Definition after_clipping {E batch : Type} (X : externals E batch)
           (tc : MetaTrainConfig) (gs : list param_group) (ps : list parameter)
  : list parameter :=
  match clip_grad tc with
  | Some c =>
      if negb (Qnum c =? 0) && use_bert_training tc
      then clipped X c gs ps
      else ps
  | None => ps
  end.

(** A model with a frozen parameter, outside both subsets: the subsets
    cover the trainable parameters and miss one of [model.parameters()]. *)
Definition frozen_model : model_view :=
  {| parameters := [0; 1; 2]%nat;
     get_bert_parameters := [0]%nat;
     get_non_bert_parameters := [1]%nat;
     get_trainable_parameters := [0; 1]%nat |}.

(** A model with a frozen parameter inside the BERT subset: the subsets
    cover [model.parameters()], one more than the trainable parameters. *)
Definition frozen_bert_model : model_view :=
  {| parameters := [0; 1; 2]%nat;
     get_bert_parameters := [0; 1]%nat;
     get_non_bert_parameters := [2]%nat;
     get_trainable_parameters := [1; 2]%nat |}.

(** * Properties *)

(** ** Running the monad *)

Section MonadFacts.
Context {S Ev : Type}.

Lemma bind_ok {A B} (m : M S Ev A) (f : A -> M S Ev B) s a s1 t1 :
  m s = (Ok a, s1, t1) ->
  bind m f s = (outcome (f a s1), final (f a s1), t1 ++ emitted (f a s1)).
Proof.
  intros Hm. unfold bind. rewrite Hm.
  destruct (f a s1) as [[r2 s2] t2]. reflexivity.
Qed.

Lemma bind_raise {A B} (m : M S Ev A) (f : A -> M S Ev B) s e s1 t1 :
  m s = (Raise e, s1, t1) -> bind m f s = (Raise e, s1, t1).
Proof. intros Hm. unfold bind. rewrite Hm. reflexivity. Qed.

Lemma emitted_run {A} (r : result A) (s : S) (t : list Ev) :
  emitted (r, s, t) = t.
Proof. reflexivity. Qed.

Lemma run_eta {A} (x : result A * S * list Ev) :
  x = (outcome x, final x, emitted x).
Proof. destruct x as [[r s] t]. reflexivity. Qed.

(** A loop whose body only emits leaves the store alone and emits one
    event per element. *)
Lemma for_each_emit {A} (g : A -> Ev) (body : A -> M S Ev unit) (xs : list A) (s : S) :
  (forall x s', body x s' = (Ok tt, s', [g x])) ->
  for_each xs body s = (Ok tt, s, map g xs).
Proof.
  intros Hbody. induction xs as [|x xs IH]; simpl; [reflexivity|].
  unfold bind at 1. rewrite Hbody, IH. reflexivity.
Qed.
End MonadFacts.

(** ** Configuration loading *)

Lemma load_train_config_run (tc : MetaTrainConfig) (t0 : trainer) :
  load_train_config tc t0 =
  (Ok tt, Some tc,
   (if 1 <? num_batch_accumulated tc
    then [LoggerWarn (Text warn_accumulation)] else []) ++
   (if use_bert_training tc
    then match clip_grad tc with
         | None => [LoggerInfo (Text recommend_clipping)]
         | Some _ => []
         end
    else [])).
Proof.
  unfold load_train_config, bind, modify, emit, ret.
  destruct (1 <? num_batch_accumulated tc);
    destruct (use_bert_training tc); destruct (clip_grad tc); reflexivity.
Qed.

(** C9. Loading the training configuration never fails and stores the
    configuration; it warns exactly when the batch accumulation count
    exceeds 1 (with the one accumulation warning), and it recommends
    gradient clipping exactly when BERT training is enabled without a
    clipping threshold. *)
Theorem load_train_config_warns_and_recommends (tc : MetaTrainConfig) (t0 : trainer) :
  let run := load_train_config tc t0 in
  outcome run = Ok tt /\
  final run = Some tc /\
  ((exists m, In (LoggerWarn m) (emitted run)) <-> 1 < num_batch_accumulated tc) /\
  warnings (emitted run) =
    (if 1 <? num_batch_accumulated tc then [Text warn_accumulation] else []) /\
  (In (LoggerInfo (Text recommend_clipping)) (emitted run) <->
   use_bert_training tc = true /\ clip_grad tc = None).
Proof.
  cbv zeta. rewrite load_train_config_run. unfold outcome, final, emitted. simpl.
  split; [reflexivity|]. split; [reflexivity|].
  destruct (Z.ltb_spec 1 (num_batch_accumulated tc)) as [Hn|Hn];
    destruct (use_bert_training tc); destruct (clip_grad tc) as [c|]; simpl.
  all: split; [split; [intros [m Hin]|intros Hlt]|].
  all: try (exact Hn).
  all: try (exists (Text warn_accumulation); left; reflexivity).
  all: try (exfalso; lia).
  all: try (exfalso; repeat (destruct Hin as [Hin|Hin]; try discriminate Hin);
            exact Hin).
  all: split; [reflexivity|].
  all: split; [intros Hin|intros [Hb Hc]]; try discriminate.
  all: try (split; reflexivity).
  all: try (exfalso; repeat (destruct Hin as [Hin|Hin]; try discriminate Hin);
            exact Hin).
  all: simpl; auto.
Qed.

(** ** Optimizer construction *)

Section ConstructionFacts.
Variable construct_optimizer : spec -> optimizer_args -> heap -> optimizer * heap.
Variables (tc : MetaTrainConfig) (model : model_view) (config : run_config).

Let maml : maml_trainer :=
  {| maml_inner_lr := inner_lr tc;
     maml_first_order := first_order tc;
     maml_num_particles := num_particles tc |}.
Let n_bert : nat := List.length (get_bert_parameters model).
Let n_non_bert : nat := List.length (get_non_bert_parameters model).
Let n_all : nat := List.length (parameters model).
Let over (l : loc) : lr_scheduler :=
  {| sched_spec := lr_scheduler_spec config; sched_param_groups := l |}.

(** With BERT training, a failed size check stops construction before
    anything is built. *)
Lemma load_optimizer_partition_violated (h : heap) :
  use_bert_training tc = true ->
  (n_non_bert + n_bert)%nat <> n_all ->
  load_optimizer construct_optimizer tc model config h =
  (Raise AssertionError, h, [NewBMAML maml; ToDevice]).
Proof.
  intros Hb Hne. apply Nat.eqb_neq in Hne.
  unfold load_optimizer, bind, emit, assert, raise, ret. rewrite Hb.
  fold n_bert n_non_bert n_all. rewrite Hne. reflexivity.
Qed.

Lemma load_optimizer_no_bert_params (h : heap) :
  use_bert_training tc = true ->
  n_bert = 0%nat ->
  load_optimizer construct_optimizer tc model config h =
  (Raise AssertionError, h, [NewBMAML maml; ToDevice]).
Proof.
  intros Hb Hz.
  unfold load_optimizer, bind, emit, assert, raise, ret. rewrite Hb.
  fold n_bert n_non_bert n_all. rewrite Hz.
  destruct (Nat.eqb (n_non_bert + 0) n_all); reflexivity.
Qed.

(** With BERT training and both checks passed. *)
Lemma load_optimizer_bert_run (h : heap) :
  use_bert_training tc = true ->
  (n_non_bert + n_bert)%nat = n_all ->
  (0 < n_bert)%nat ->
  let args := BertSplit (get_non_bert_parameters model) (get_bert_parameters model) in
  let o := fst (construct_optimizer (cfg_optimizer config) args h) in
  let h1 := snd (construct_optimizer (cfg_optimizer config) args h) in
  load_optimizer construct_optimizer tc model config h =
  (Ok (maml, o, over (param_groups o)),
   h1 ++ [[non_bert_param_group o; bert_param_group o]],
   [NewBMAML maml; ToDevice; InfoParamCounts n_bert n_non_bert;
    ConstructOptimizer (cfg_optimizer config) args;
    ConstructScheduler (over (List.length h1));
    ConstructScheduler (over (param_groups o))]).
Proof.
  intros Hb Heq Hpos. apply Nat.eqb_eq in Heq. apply Nat.ltb_lt in Hpos.
  cbv zeta.
  unfold load_optimizer, bind, emit, assert, raise, ret,
    registry_construct_optimizer, registry_construct_lr_scheduler, new_list, bind, emit, ret.
  rewrite Hb. fold n_bert n_non_bert n_all. rewrite Heq, Hpos.
  destruct (construct_optimizer _ _ h) as [o h1]. reflexivity.
Qed.

(** Without BERT training nothing is checked. *)
Lemma load_optimizer_plain_run (h : heap) :
  use_bert_training tc = false ->
  let args := Params (get_trainable_parameters model) in
  let o := fst (construct_optimizer (cfg_optimizer config) args h) in
  let h1 := snd (construct_optimizer (cfg_optimizer config) args h) in
  load_optimizer construct_optimizer tc model config h =
  (Ok (maml, o, over (param_groups o)), h1,
   [NewBMAML maml; ToDevice;
    ConstructOptimizer (cfg_optimizer config) args;
    ConstructScheduler (over (param_groups o));
    ConstructScheduler (over (param_groups o))]).
Proof.
  intros Hb. cbv zeta.
  unfold load_optimizer, bind, emit, assert, raise, ret,
    registry_construct_optimizer, registry_construct_lr_scheduler, bind, emit, ret.
  rewrite Hb.
  destruct (construct_optimizer _ _ h) as [o h1]. reflexivity.
Qed.

(** C2, as the code has it. With BERT training enabled, [load_optimizer]
    compares the sizes of the BERT and non-BERT subsets with the number
    of all parameters of the model ([model.parameters()], whatever
    [get_trainable_parameters] returns): when they do not add up to it,
    it raises [AssertionError] before any optimizer or scheduler is built
    and leaves the heap alone, and a model whose subsets add up to it
    (and whose BERT subset is non-empty) is accepted. *)
Theorem load_optimizer_asserts_partition (h : heap) :
  use_bert_training tc = true ->
  let run := load_optimizer construct_optimizer tc model config h in
  ((List.length (get_non_bert_parameters model)
    + List.length (get_bert_parameters model))%nat
   <> List.length (parameters model) ->
   outcome run = Raise AssertionError /\ final run = h /\
   optimizers_built (emitted run) = 0%nat /\ schedulers_built (emitted run) = []) /\
  ((List.length (get_non_bert_parameters model)
    + List.length (get_bert_parameters model))%nat
   = List.length (parameters model) ->
   (0 < List.length (get_bert_parameters model))%nat ->
   exists o s, outcome run = Ok (maml, o, s)).
Proof.
  intros Hb run. subst run. split.
  - intros Hne. rewrite (load_optimizer_partition_violated h Hb Hne).
    repeat split.
  - intros Heq Hpos. rewrite (load_optimizer_bert_run h Hb Heq Hpos).
    eexists; eexists; reflexivity.
Qed.

(** C8. With BERT training enabled, [load_optimizer] requires the BERT
    subset to be non-empty: with an empty one it raises [AssertionError]
    before any optimizer or scheduler is built, also when the sizes add
    up; with a non-empty one (and sizes that add up) it returns. *)
Theorem load_optimizer_asserts_bert_nonempty (h : heap) :
  use_bert_training tc = true ->
  let run := load_optimizer construct_optimizer tc model config h in
  (List.length (get_bert_parameters model) = 0%nat ->
   outcome run = Raise AssertionError /\ final run = h /\
   optimizers_built (emitted run) = 0%nat /\ schedulers_built (emitted run) = []) /\
  ((0 < List.length (get_bert_parameters model))%nat ->
   (List.length (get_non_bert_parameters model)
    + List.length (get_bert_parameters model))%nat
   = List.length (parameters model) ->
   exists o s, outcome run = Ok (maml, o, s)).
Proof.
  intros Hb run. subst run. split.
  - intros Hz. rewrite (load_optimizer_no_bert_params h Hb Hz).
    repeat split.
  - intros Hpos Heq. rewrite (load_optimizer_bert_run h Hb Heq Hpos).
    eexists; eexists; reflexivity.
Qed.

(** C3. Whenever [load_optimizer] returns, the scheduler it returns is
    the one built last, over [optimizer.param_groups] of the optimizer it
    returns, from the configured specification.  With BERT training the
    scheduler built first, over a new list holding the optimizer's
    non-BERT and BERT groups, is not the one returned.  The only failure
    is an [AssertionError] under BERT training, before any scheduler is
    built. *)
Theorem load_optimizer_scheduler_over_param_groups (h : heap) :
  let run := load_optimizer construct_optimizer tc model config h in
  match outcome run with
  | Ok (_, o, s) =>
      s = {| sched_spec := lr_scheduler_spec config;
             sched_param_groups := param_groups o |} /\
      (exists first, schedulers_built (emitted run) = [first; s] /\
         (use_bert_training tc = true ->
          exists h1, final run = h1 ++ [[non_bert_param_group o; bert_param_group o]]
                     /\ sched_param_groups first = List.length h1))
  | Raise e =>
      e = AssertionError /\ use_bert_training tc = true /\
      schedulers_built (emitted run) = []
  end.
Proof.
  cbv zeta. destruct (use_bert_training tc) eqn:Hb.
  - destruct (Nat.eq_dec (n_non_bert + n_bert) n_all) as [Heq|Hne].
    + destruct (Nat.eq_dec n_bert 0) as [Hz|Hnz].
      * rewrite (load_optimizer_no_bert_params h Hb Hz). simpl. auto.
      * assert (Hpos : (0 < n_bert)%nat) by lia.
        rewrite (load_optimizer_bert_run h Hb Heq Hpos). simpl.
        split; [reflexivity|]. eexists. split; [reflexivity|].
        intros _. eexists. split; reflexivity.
    + rewrite (load_optimizer_partition_violated h Hb Hne). simpl. auto.
  - rewrite (load_optimizer_plain_run h Hb). simpl.
    split; [reflexivity|]. eexists. split; [reflexivity|].
    intros Hf. discriminate Hf.
Qed.
End ConstructionFacts.

(** ** Traces *)

Section TraceFacts.
Context {batch : Type}.
Implicit Types (t : list (event batch)) (p : event batch -> bool).

Lemma count_app p t1 t2 : count p (t1 ++ t2) = (count p t1 + count p t2)%nat.
Proof. unfold count. rewrite filter_app, length_app. reflexivity. Qed.

Lemma filter_none p t :
  (forall e, In e t -> p e = false) -> filter p t = [].
Proof.
  induction t as [|e t IH]; intros H; simpl; [reflexivity|].
  rewrite (H e (or_introl eq_refl)). apply IH.
  intros e' He'. apply H. right. exact He'.
Qed.

Lemma filter_all p t :
  (forall e, In e t -> p e = true) -> filter p t = t.
Proof.
  induction t as [|e t IH]; intros H; simpl; [reflexivity|].
  rewrite (H e (or_introl eq_refl)). f_equal. apply IH.
  intros e' He'. apply H. right. exact He'.
Qed.

Lemma last_loss_app t1 t2 :
  last_loss (t1 ++ t2) =
  match last_loss t2 with Some l => Some l | None => last_loss t1 end.
Proof.
  induction t1 as [|e t1 IH]; simpl.
  - destruct (last_loss t2); reflexivity.
  - rewrite IH. destruct (last_loss t2); reflexivity.
Qed.

Lemma last_loss_none t :
  (forall e, In e t -> is_meta_train e = false) -> last_loss t = None.
Proof.
  induction t as [|e t IH]; intros H; simpl; [reflexivity|].
  rewrite IH by (intros e' He'; apply H; right; exact He').
  specialize (H e (or_introl eq_refl)). destruct e; try reflexivity; discriminate.
Qed.

(** An accumulation trace holds nothing but its fetches and training
    calls, as many of each as there were iterations. *)
Lemma acc_trace_kinds s k t :
  acc_trace s k t ->
  forall e, In e t -> is_get_batch e = true \/ is_meta_train e = true.
Proof.
  induction 1 as [|k i o l t Ht IH]; intros e He; [destruct He|].
  destruct He as [<-|[<-|He]]; [left|right|]; try reflexivity. apply IH, He.
Qed.

Lemma acc_trace_count_get s k t :
  acc_trace s k t -> count is_get_batch t = k.
Proof.
  induction 1 as [|k i o l t Ht IH]; [reflexivity|].
  unfold count in *. simpl. rewrite IH. reflexivity.
Qed.

Lemma acc_trace_count_meta s k t :
  acc_trace s k t -> count is_meta_train t = k.
Proof.
  induction 1 as [|k i o l t Ht IH]; [reflexivity|].
  unfold count in *. simpl. rewrite IH. reflexivity.
Qed.

Lemma acc_trace_filter_none s k t p :
  acc_trace s k t ->
  (forall e, is_get_batch e = true \/ is_meta_train e = true -> p e = false) ->
  filter p t = [].
Proof.
  intros Ht Hp. apply filter_none. intros e He.
  apply Hp. exact (acc_trace_kinds Ht e He).
Qed.

Lemma acc_trace_last_loss s k t :
  acc_trace s (S k) t -> exists l, last_loss t = Some l.
Proof.
  inversion 1 as [|k' i o l t' Ht']; subst. simpl.
  destruct (last_loss t') as [l'|]; eexists; reflexivity.
Qed.

Lemma clip_calls_kinds (tc : MetaTrainConfig) gs (e : event batch) :
  In e (clip_calls tc gs) -> is_clip e = true.
Proof.
  unfold clip_calls. destruct (clip_grad tc) as [c|]; [|intros []].
  destruct (negb (Qnum c =? 0) && use_bert_training tc); [|intros []].
  rewrite in_map_iff. intros [g [<- _]]. reflexivity.
Qed.

Lemma clip_calls_filter_none (tc : MetaTrainConfig) gs p :
  (forall e : event batch, is_clip e = true -> p e = false) ->
  filter p (clip_calls tc gs) = [].
Proof.
  intros Hp. apply filter_none. intros e He. apply Hp.
  exact (clip_calls_kinds tc gs e He).
Qed.

Lemma tracked_kinds (tc : MetaTrainConfig) s l outer (e : event batch) :
  In e (tracked tc s l outer) -> is_wandb e = true.
Proof.
  unfold tracked. intros [<-|[<-|He]]; try reflexivity.
  apply in_map_iff in He. destruct He as [[idx r] [<- _]]. reflexivity.
Qed.

Lemma tracked_filter (tc : MetaTrainConfig) s l outer (a b : log_event) :
  filter is_wandb (Log a :: Log b :: tracked (batch:=batch) tc s l outer) =
  tracked tc s l outer.
Proof.
  change (filter is_wandb (tracked (batch:=batch) tc s l outer)
          = tracked tc s l outer).
  apply filter_all. apply tracked_kinds.
Qed.

Lemma enumerate_length {A} (xs : list A) :
  List.length (enumerate xs) = List.length xs.
Proof.
  unfold enumerate. rewrite length_combine, length_seq. apply Nat.min_id.
Qed.
End TraceFacts.

(** ** The phases of a step *)

Section StepFacts.
Context {E batch : Type} (X : externals E batch).
Variables (tc : MetaTrainConfig) (last_step : Z) (enc ali dec : list pid).
Implicit Types (w : world E).

(** The loop terminates normally after [k] iterations, leaves the
    parameter groups alone, and hands over the loss of its last training
    call, or the incoming [loss] when it did not iterate. *)
Lemma accumulate_run k : forall loss w,
  exists w' t,
    accumulate X tc last_step enc ali dec k loss w =
      (Ok (match last_loss t with Some l => Some l | None => loss end), w', t) /\
    acc_trace last_step k t /\ groups w' = groups w.
Proof.
  induction k as [|k IH]; intros loss w; simpl.
  - exists w, []. repeat split. constructor.
  - unfold bind at 1. unfold call_get_batch at 1.
    destruct (get_batch X last_step (ext w)) as [[inner outer] e1].
    unfold bind at 1. unfold call_meta_train at 1. cbn [model_parameters ext groups].
    destruct (meta_train X enc ali dec inner outer (inner_opt tc)
                         (model_parameters w) e1) as [[l ps] e2].
    destruct (IH (Some l) {| model_parameters := ps; groups := groups w; ext := e2 |})
      as (w' & t & Hrun & Ht & Hg).
    rewrite Hrun. exists w', (GetBatch last_step :: MetaTrain inner outer l :: t).
    split; [|split; [constructor; exact Ht|exact Hg]].
    simpl. destruct (last_loss t); reflexivity.
Qed.

Lemma clip_loop_run (c : Q) (gs : list param_group) : forall w,
  exists w',
    for_each gs (fun g => call_clip_grad_norm_ X (params g) c) w =
      (Ok tt, w', map (fun g => ClipGradNorm (params g) c) gs) /\
    groups w' = groups w /\ ext w' = ext w.
Proof.
  induction gs as [|g gs IH]; intros w; simpl.
  - exists w. repeat split.
  - unfold bind at 1. unfold call_clip_grad_norm_ at 1.
    destruct (IH {| model_parameters :=
                      clip_grad_norm_ X (params g) c (model_parameters w);
                    groups := groups w; ext := ext w |}) as (w' & Hrun & Hg & He).
    rewrite Hrun. exists w'. repeat split; assumption.
Qed.

Lemma clip_bert_grad_run w :
  exists w',
    clip_bert_grad X tc w = (Ok tt, w', clip_calls tc (groups w)) /\
    groups w' = groups w /\ ext w' = ext w.
Proof.
  unfold clip_bert_grad, clip_calls, truthy.
  destruct (clip_grad tc) as [c|]; simpl.
  - destruct (negb (Qnum c =? 0) && use_bert_training tc).
    + unfold bind, gets.
      destruct (clip_loop_run c (groups w) w) as (w' & Hrun & Hg & He).
      rewrite Hrun. exists w'. repeat split; assumption.
    + exists w. repeat split.
  - exists w. repeat split.
Qed.

(** Everything before the learning-rate update. *)
Lemma train_and_update_run w :
  exists w' t_acc,
    train_and_update X tc last_step enc ali dec w =
      (Ok (last_loss t_acc), w',
       t_acc ++ clip_calls tc (groups w) ++ [OptimizerStep; ZeroGrad]) /\
    acc_trace last_step (Z.to_nat (num_batch_accumulated tc)) t_acc /\
    groups w' = groups w.
Proof.
  unfold train_and_update. unfold bind at 1. unfold init_grads, modify.
  set (w0 := {| model_parameters := map zero_unset_grad (model_parameters w);
                groups := groups w; ext := ext w |}).
  destruct (accumulate_run (Z.to_nat (num_batch_accumulated tc)) None w0)
    as (w1 & t_acc & Hacc & Ht & Hg1).
  unfold bind at 1. rewrite Hacc.
  destruct (clip_bert_grad_run w1) as (w2 & Hclip & Hg2 & He2).
  unfold bind at 1. rewrite Hclip.
  unfold bind, call_optimizer_step, call_optimizer_zero_grad, ret.
  destruct (optimizer_step X (groups w2) (model_parameters w2) (ext w2)) as [ps e3].
  cbn [model_parameters groups ext].
  eexists. exists t_acc. split; [|split; [exact Ht|]].
  - rewrite Hg1. simpl. destruct (last_loss t_acc); reflexivity.
  - simpl. rewrite Hg2, Hg1. reflexivity.
Qed.

(** [step] is that prefix followed by the update and the report. *)
Lemma step_split w :
  step X tc last_step enc ali dec w =
  bind (train_and_update X tc last_step enc ali dec)
       (fun loss => outer_lr <- log_lr X last_step ;;
                    report tc last_step loss outer_lr) w.
Proof.
  unfold step, train_and_update, bind, init_grads, modify,
    call_optimizer_step, call_optimizer_zero_grad, ret.
  destruct (accumulate _ _ _ _ _ _ _ _ _) as [[[l|e] w1] t1]; [|reflexivity].
  destruct (clip_bert_grad X tc w1) as [[[[]|e] w2] t2]; [|reflexivity].
  destruct (optimizer_step _ _ _ _) as [ps e3].
  destruct (log_lr _ _ _) as [[[o|e] w5] t5].
  - destruct (report _ _ _ _ _) as [[r w6] t6]. simpl.
    rewrite ?app_nil_r, <- ?app_assoc. reflexivity.
  - simpl. rewrite ?app_nil_r, <- ?app_assoc. reflexivity.
Qed.

Lemma log_lr_run w :
  log_lr X last_step w =
  (Ok (match fst (fst (update_lr X last_step (groups w) (ext w))) with
       | None => map g_lr (snd (fst (update_lr X last_step (groups w) (ext w))))
       | Some rates => rates
       end),
   {| model_parameters := model_parameters w;
      groups := snd (fst (update_lr X last_step (groups w) (ext w)));
      ext := snd (update_lr X last_step (groups w) (ext w)) |},
   [UpdateLr last_step]).
Proof.
  unfold log_lr, bind, call_update_lr, gets, ret.
  destruct (update_lr X last_step (groups w) (ext w)) as [[[rates|] gs'] e']; reflexivity.
Qed.

(** The report, case by case. *)
Lemma report_run (loss : option Q) (outer_lr : list Q) w :
  report (E:=E) (batch:=batch) tc last_step loss outer_lr w =
  if report_every_n tc =? 0 then (Raise ZeroDivisionError, w, [])
  else if last_step mod report_every_n tc =? 0 then
    match loss with
    | None => (Raise UnboundLocalError, w, [])
    | Some l =>
        (Ok tt, w,
         Log (LoggerInfo (StepLoss last_step l))
         :: Log (LoggerInfo (StepLr last_step (lr (inner_opt tc)) outer_lr))
         :: tracked tc last_step l outer_lr)
    end
  else (Ok tt, w, []).
Proof.
  unfold report.
  destruct (report_every_n tc =? 0); [reflexivity|].
  destruct (last_step mod report_every_n tc =? 0); [|reflexivity].
  destruct loss as [l|]; [|reflexivity].
  unfold bind, logger_info, wandb_log, log_outer_lrs, emit, ret, tracked.
  rewrite (for_each_emit
             (fun x : nat * Q => let '(idx, r) := x in
                                 WandbLog (batch:=batch) (outer_lr_key idx) r last_step))
    by (intros [idx r] s'; reflexivity).
  reflexivity.
Qed.

Lemma report_kinds (loss : option Q) (outer_lr : list Q) w e :
  In e (emitted (report (E:=E) (batch:=batch) tc last_step loss outer_lr w)) ->
  is_report e = true.
Proof.
  rewrite report_run.
  destruct (report_every_n tc =? 0); [intros []|].
  destruct (last_step mod report_every_n tc =? 0); [|intros []].
  destruct loss as [l|]; [|intros []].
  unfold emitted. simpl snd. intros [<-|[<-|He]]; try reflexivity.
  apply tracked_kinds in He. destruct e; try discriminate; reflexivity.
Qed.

(** The whole run of a step. *)
Lemma step_run w :
  exists w4 t_acc,
    train_and_update X tc last_step enc ali dec w =
      (Ok (last_loss t_acc), w4,
       t_acc ++ clip_calls tc (groups w) ++ [OptimizerStep; ZeroGrad]) /\
    acc_trace last_step (Z.to_nat (num_batch_accumulated tc)) t_acc /\
    groups w4 = groups w /\
    let lrs := log_lr X last_step w4 in
    exists outer_lr,
      outcome lrs = Ok outer_lr /\
      let rep := report tc last_step (last_loss t_acc) outer_lr (final lrs) in
      step X tc last_step enc ali dec w =
        (outcome rep, final lrs,
         t_acc ++ clip_calls tc (groups w)
               ++ [OptimizerStep; ZeroGrad; UpdateLr last_step] ++ emitted rep).
Proof.
  destruct (train_and_update_run w) as (w4 & t_acc & Hrun & Ht & Hg).
  exists w4, t_acc. repeat (split; [assumption|]).
  cbv zeta. rewrite log_lr_run. eexists. split; [reflexivity|].
  rewrite step_split. unfold bind at 1. rewrite Hrun.
  unfold bind at 1. rewrite log_lr_run. unfold final, outcome, emitted. simpl fst. simpl snd.
  rewrite report_run.
  destruct (report_every_n tc =? 0);
    [|destruct (last_step mod report_every_n tc =? 0);
      [destruct (last_loss t_acc)|]];
    simpl; rewrite <- ?app_assoc; reflexivity.
Qed.
(** The loop does what [iterations] says. *)
Lemma accumulate_iterations k : forall loss w,
  exists lout w' t,
    accumulate X tc last_step enc ali dec k loss w = (Ok lout, w', t) /\
    iterations X tc last_step enc ali dec k w loss t lout w'.
Proof.
  induction k as [|k IH]; intros loss w.
  - exists loss, w, []. split; [reflexivity|constructor].
  - cbn [accumulate]. unfold bind at 1. unfold call_get_batch at 1.
    destruct (get_batch X last_step (ext w)) as [[inner outer] e1] eqn:Hget.
    unfold bind at 1. unfold call_meta_train at 1. cbn [model_parameters ext groups].
    destruct (meta_train X enc ali dec inner outer (inner_opt tc)
                         (model_parameters w) e1) as [[l ps] e2] eqn:Hmt.
    destruct (IH (Some l) {| model_parameters := ps; groups := groups w; ext := e2 |})
      as (lout & w' & t & Hrun & Hit).
    rewrite Hrun. exists lout, w', (GetBatch last_step :: MetaTrain inner outer l :: t).
    split; [reflexivity|]. econstructor; eassumption.
Qed.

Lemma iterations_facts k w lin t lout w' :
  iterations X tc last_step enc ali dec k w lin t lout w' ->
  acc_trace last_step k t /\ groups w' = groups w /\
  lout = match last_loss t with Some l => Some l | None => lin end.
Proof.
  induction 1 as [w lin|k w lin inner outer e1 l ps e2 t lout w' Hget Hmt Hit IH].
  - repeat split. constructor.
  - destruct IH as (Ht & Hg & Hl). split; [constructor; exact Ht|].
    split; [exact Hg|]. simpl. rewrite Hl. destruct (last_loss t); reflexivity.
Qed.

(** The last of [S k] iterations. *)
Lemma iterations_last k : forall w lin t lout w',
  iterations X tc last_step enc ali dec (S k) w lin t lout w' ->
  exists t_k l_k w_k inner outer e1,
    iterations X tc last_step enc ali dec k w lin t_k l_k w_k /\
    get_batch X last_step (ext w_k) = ((inner, outer), e1) /\
    lout = Some (fst (fst (meta_train X enc ali dec inner outer (inner_opt tc)
                                      (model_parameters w_k) e1))).
Proof.
  induction k as [|k IH]; intros w lin t lout w' H.
  - inversion H as [|k' w0 lin0 inner outer e1 l ps e2 t' lout0 w0' Hget Hmt Hit];
      subst.
    inversion Hit; subst.
    exists [], lin, w, inner, outer, e1.
    split; [constructor|]. split; [exact Hget|]. rewrite Hmt. reflexivity.
  - inversion H as [|k' w0 lin0 inner outer e1 l ps e2 t' lout0 w0' Hget Hmt Hit];
      subst.
    destruct (IH _ _ _ _ _ Hit)
      as (t_k & l_k & w_k & inner' & outer' & e1' & Hit' & Hget' & Hl).
    exists (GetBatch last_step :: MetaTrain inner outer l :: t_k), l_k, w_k,
      inner', outer', e1'.
    split; [econstructor; eassumption|]. split; assumption.
Qed.

Lemma clip_loop_world (c : Q) (gs : list param_group) : forall w,
  for_each gs (fun g => call_clip_grad_norm_ X (params g) c) w =
  (Ok tt,
   {| model_parameters := clipped X c gs (model_parameters w);
      groups := groups w; ext := ext w |},
   map (fun g => ClipGradNorm (params g) c) gs).
Proof.
  induction gs as [|g gs IH]; intros w.
  - destruct w. reflexivity.
  - cbn [for_each]. unfold bind at 1. unfold call_clip_grad_norm_ at 1.
    rewrite IH. reflexivity.
Qed.

(** The clipping phase, with the world it leaves. *)
Lemma clip_bert_grad_world w :
  clip_bert_grad X tc w =
  (Ok tt,
   {| model_parameters := after_clipping X tc (groups w) (model_parameters w);
      groups := groups w; ext := ext w |},
   clip_calls tc (groups w)).
Proof.
  unfold clip_bert_grad, clip_calls, after_clipping, truthy.
  destruct (clip_grad tc) as [c|]; simpl; [|destruct w; reflexivity].
  destruct (negb (Qnum c =? 0) && use_bert_training tc);
    [|destruct w; reflexivity].
  unfold bind, gets. rewrite clip_loop_world. reflexivity.
Qed.

(** The whole run of a step, with the worlds it passes through. *)
Lemma step_worlds w :
  exists t_acc loss w1,
    iterations X tc last_step enc ali dec (Z.to_nat (num_batch_accumulated tc))
               (final (init_grads (batch:=batch) w)) None t_acc loss w1 /\
    let stepped := optimizer_step X (groups w)
                     (after_clipping X tc (groups w) (model_parameters w1))
                     (ext w1) in
    let w4 := {| model_parameters := optimizer_zero_grad X (groups w) (fst stepped);
                 groups := groups w; ext := snd stepped |} in
    let upd := update_lr X last_step (groups w) (snd stepped) in
    let outer_lr := match fst (fst upd) with
                    | None => map g_lr (snd (fst upd))
                    | Some rates => rates
                    end in
    let w5 := {| model_parameters := optimizer_zero_grad X (groups w) (fst stepped);
                 groups := snd (fst upd); ext := snd upd |} in
    clip_bert_grad X tc w1 =
      (Ok tt,
       {| model_parameters := after_clipping X tc (groups w) (model_parameters w1);
          groups := groups w; ext := ext w1 |},
       clip_calls tc (groups w)) /\
    train_and_update X tc last_step enc ali dec w =
      (Ok loss, w4, t_acc ++ clip_calls tc (groups w) ++ [OptimizerStep; ZeroGrad]) /\
    step X tc last_step enc ali dec w =
      (outcome (report (batch:=batch) tc last_step loss outer_lr w5), w5,
       t_acc ++ clip_calls tc (groups w)
             ++ [OptimizerStep; ZeroGrad; UpdateLr last_step]
             ++ emitted (report tc last_step loss outer_lr w5)).
Proof.
  destruct (accumulate_iterations (Z.to_nat (num_batch_accumulated tc)) None
              (final (init_grads (batch:=batch) w)))
    as (loss & w1 & t_acc & Hacc & Hit).
  exists t_acc, loss, w1. split; [exact Hit|]. cbv zeta.
  destruct (iterations_facts Hit) as (_ & Hg1 & _).
  assert (Hg : groups w1 = groups w) by (rewrite Hg1; reflexivity).
  pose proof (clip_bert_grad_world w1) as Hclip. rewrite Hg in Hclip.
  split; [exact Hclip|].
  assert (Htu : train_and_update X tc last_step enc ali dec w =
                (Ok loss,
                 {| model_parameters :=
                      optimizer_zero_grad X (groups w)
                        (fst (optimizer_step X (groups w)
                                (after_clipping X tc (groups w) (model_parameters w1))
                                (ext w1)));
                    groups := groups w;
                    ext := snd (optimizer_step X (groups w)
                                  (after_clipping X tc (groups w) (model_parameters w1))
                                  (ext w1)) |},
                 t_acc ++ clip_calls tc (groups w) ++ [OptimizerStep; ZeroGrad])).
  { unfold train_and_update. unfold bind at 1.
    change (init_grads (batch:=batch) w)
      with (Ok tt, final (init_grads (batch:=batch) w), @nil (event batch)).
    cbv iota beta. unfold bind at 1. rewrite Hacc.
    unfold bind at 1. rewrite Hclip.
    unfold bind, call_optimizer_step, call_optimizer_zero_grad, ret.
    cbn [model_parameters groups ext].
    destruct (optimizer_step X (groups w)
                (after_clipping X tc (groups w) (model_parameters w1)) (ext w1))
      as [ps e3].
    reflexivity. }
  split; [exact Htu|].
  rewrite step_split. unfold bind at 1. rewrite Htu.
  unfold bind at 1. rewrite log_lr_run. cbn [model_parameters groups ext].
  rewrite report_run. unfold outcome, emitted.
  destruct (report_every_n tc =? 0);
    [|destruct (last_step mod report_every_n tc =? 0); [destruct loss|]];
    simpl; rewrite <- ?app_assoc; reflexivity.
Qed.
End StepFacts.

(** ** The training step *)

(** Events of one kind are not of another. *)
Ltac kinds :=
  let e := fresh "e" in
  let H := fresh "H" in
  intros e H; destruct e; try (destruct H as [H|H]);
  try discriminate H; reflexivity.

Section StepClaims.
Context {E batch : Type} (X : externals E batch).
Variables (tc : MetaTrainConfig) (last_step : Z) (enc ali dec : list pid).
Implicit Types (w : world E).

Lemma report_filter_none (p : event batch -> bool) loss outer_lr w :
  (forall e, is_report e = true -> p e = false) ->
  filter p (emitted (report (E:=E) tc last_step loss outer_lr w)) = [].
Proof.
  intros Hp. apply filter_none. intros e He. apply Hp.
  exact (report_kinds tc last_step loss outer_lr w e He).
Qed.

(** C7. A step first gives every parameter whose gradient is unset a
    gradient of zeros with the shape of the parameter and leaves the other
    parameters, their data, the parameter groups and the collaborators
    untouched, without calling anyone; the accumulation loop then starts
    from the world so prepared, and its calls open the trace of the
    step. *)
Theorem step_zeroes_unset_grads w :
  let w0 := final (init_grads (batch:=batch) w) in
  init_grads (batch:=batch) w = (Ok tt, w0, []) /\
  groups w0 = groups w /\ ext w0 = ext w /\
  List.length (model_parameters w0) = List.length (model_parameters w) /\
  (forall i p, nth_error (model_parameters w) i = Some p ->
     exists p', nth_error (model_parameters w0) i = Some p' /\
       data p' = data p /\
       match grad p with
       | Some g => p' = p
       | None => exists z, grad p' = Some z /\ shape z = shape (data p) /\
                   List.length (entries z) = fold_right Nat.mul 1%nat (shape z) /\
                   Forall (fun x => x = 0%Q) (entries z)
       end) /\
  (exists loss w1 t_acc rest,
     accumulate X tc last_step enc ali dec
                (Z.to_nat (num_batch_accumulated tc)) None w0 = (Ok loss, w1, t_acc) /\
     acc_trace last_step (Z.to_nat (num_batch_accumulated tc)) t_acc /\
     emitted (step X tc last_step enc ali dec w) = t_acc ++ rest).
Proof.
  cbv zeta. unfold init_grads at 1 2 3 4, modify, final. simpl fst. simpl snd.
  split; [reflexivity|]. split; [reflexivity|]. split; [reflexivity|].
  split; [apply length_map|]. split.
  - intros i p Hp. exists (zero_unset_grad p). split.
    + apply map_nth_error. exact Hp.
    + unfold zero_unset_grad. destruct (grad p) as [g|] eqn:Hg.
      * split; reflexivity.
      * split; [reflexivity|]. exists (zeros_like (data p)).
        split; [reflexivity|]. split; [reflexivity|]. simpl. split.
        -- apply repeat_length.
        -- apply Forall_forall. intros x Hx. exact (repeat_spec _ _ _ Hx).
  - destruct (accumulate_run X tc last_step enc ali dec
                (Z.to_nat (num_batch_accumulated tc)) None
                {| model_parameters := map zero_unset_grad (model_parameters w);
                   groups := groups w; ext := ext w |})
      as (w1 & t_acc & Hacc & Ht & _).
    unfold step.
    rewrite (bind_ok (init_grads (batch:=batch)) _ w eq_refl).
    rewrite (bind_ok _ _ _ Hacc).
    eexists. exists w1, t_acc. eexists.
    split; [exact Hacc|]. split; [exact Ht|]. reflexivity.
Qed.

(** C4. A step makes one fetch and one bi-level training call per
    accumulation iteration, [num_batch_accumulated] of each (none for a
    count below one): every iteration fetches the task of the step from
    the data scheduler and trains on that very task, in the world the
    iteration before left.  After them, and after the clipping calls, it
    applies one optimizer step immediately followed by one gradient
    reset, and neither occurs anywhere else, whatever the accumulation
    count: the parameters after the step are what the reset makes of what
    the optimizer step returned. *)
Theorem step_accumulates_then_updates_once w :
  let t := emitted (step X tc last_step enc ali dec w) in
  let n := Z.to_nat (num_batch_accumulated tc) in
  (exists t_acc after,
     acc_trace last_step n t_acc /\
     t = t_acc ++ clip_calls tc (groups w) ++ [OptimizerStep; ZeroGrad] ++ after /\
     count is_get_batch after = 0%nat /\ count is_meta_train after = 0%nat /\
     exists loss w1,
       iterations X tc last_step enc ali dec n
                  (final (init_grads (batch:=batch) w)) None t_acc loss w1 /\
       let stepped := optimizer_step X (groups w)
                        (after_clipping X tc (groups w) (model_parameters w1))
                        (ext w1) in
       final (train_and_update X tc last_step enc ali dec w) =
         {| model_parameters := optimizer_zero_grad X (groups w) (fst stepped);
            groups := groups w; ext := snd stepped |} /\
       model_parameters (final (step X tc last_step enc ali dec w)) =
         optimizer_zero_grad X (groups w) (fst stepped)) /\
  count is_get_batch t = n /\ count is_meta_train t = n /\
  count is_optimizer_step t = 1%nat /\ count is_zero_grad t = 1%nat.
Proof.
  cbv zeta.
  destruct (step_worlds X tc last_step enc ali dec w)
    as (t_acc & loss & w1 & Hit & _ & Htu & Hstep).
  cbv zeta in Htu, Hstep.
  destruct (iterations_facts Hit) as (Ht & _ & _).
  rewrite Hstep, Htu, !emitted_run.
  set (rep := emitted (report tc last_step loss _ _)).
  assert (Hrep : forall p : event batch -> bool,
             (forall e, is_report e = true -> p e = false) -> count p rep = 0%nat).
  { intros p Hp. unfold count, rep. rewrite report_filter_none by exact Hp.
    reflexivity. }
  assert (Hclip : forall p : event batch -> bool,
             (forall e, is_clip e = true -> p e = false) ->
             count p (clip_calls tc (groups w)) = 0%nat).
  { intros p Hp. unfold count. rewrite clip_calls_filter_none by exact Hp.
    reflexivity. }
  assert (Hacc : forall p : event batch -> bool,
             (forall e, is_get_batch e = true \/ is_meta_train e = true -> p e = false) ->
             count p t_acc = 0%nat).
  { intros p Hp. unfold count. rewrite (acc_trace_filter_none p Ht) by exact Hp.
    reflexivity. }
  split; [|split; [|split; [|split]]].
  - exists t_acc, (UpdateLr last_step :: rep).
    split; [exact Ht|]. split; [reflexivity|].
    change (UpdateLr last_step :: rep) with ([UpdateLr last_step] ++ rep).
    rewrite !count_app, !Hrep by kinds.
    split; [reflexivity|]. split; [reflexivity|].
    exists loss, w1. split; [exact Hit|]. split; reflexivity.
  - rewrite !count_app, (acc_trace_count_get Ht).
    rewrite Hclip by kinds. rewrite Hrep by kinds. simpl. lia.
  - rewrite !count_app, (acc_trace_count_meta Ht).
    rewrite Hclip by kinds. rewrite Hrep by kinds. simpl. lia.
  - rewrite !count_app.
    rewrite Hacc by kinds. rewrite Hclip by kinds. rewrite Hrep by kinds.
    reflexivity.
  - rewrite !count_app.
    rewrite Hacc by kinds. rewrite Hclip by kinds. rewrite Hrep by kinds.
    reflexivity.
Qed.

(** C1, as the code has it. The clipping calls of a step are the ones
    of [clip_calls]: when the threshold is set to a non-zero value and
    BERT training is enabled, one call per parameter group of the
    optimizer, on the parameters of that group and with the threshold as
    norm, in the order of the groups; otherwise (no threshold, a zero
    threshold, or no BERT training) none.  They come after the
    accumulation iterations and right before the optimizer step; they
    work on the parameters the accumulation left, each call on the
    result of the one before, and the optimizer steps on what they
    leave. *)
Theorem step_clips_groups_under_bert_training w :
  let t := emitted (step X tc last_step enc ali dec w) in
  filter is_clip t = clip_calls tc (groups w) /\
  (exists t_acc after loss w1,
     iterations X tc last_step enc ali dec (Z.to_nat (num_batch_accumulated tc))
                (final (init_grads (batch:=batch) w)) None t_acc loss w1 /\
     acc_trace last_step (Z.to_nat (num_batch_accumulated tc)) t_acc /\
     t = t_acc ++ clip_calls tc (groups w) ++ OptimizerStep :: after /\
     filter is_clip t_acc = [] /\ filter is_clip after = [] /\
     final (clip_bert_grad X tc w1) =
       {| model_parameters :=
            after_clipping X tc (groups w) (model_parameters w1);
          groups := groups w; ext := ext w1 |} /\
     let stepped := optimizer_step X (groups w)
                      (after_clipping X tc (groups w) (model_parameters w1))
                      (ext w1) in
     final (train_and_update X tc last_step enc ali dec w) =
       {| model_parameters := optimizer_zero_grad X (groups w) (fst stepped);
          groups := groups w; ext := snd stepped |}) /\
  (forall c, clip_grad tc = Some c -> Qnum c <> 0 -> use_bert_training tc = true ->
     filter is_clip t = map (fun g => ClipGradNorm (params g) c) (groups w) /\
     forall gs ps,
       after_clipping X tc gs ps =
       fold_left (fun ps' g => clip_grad_norm_ X (params g) c ps') gs ps) /\
  (truthy (clip_grad tc) = false \/ use_bert_training tc = false ->
     filter is_clip t = [] /\
     forall gs ps, after_clipping X tc gs ps = ps).
Proof.
  cbv zeta.
  destruct (step_worlds X tc last_step enc ali dec w)
    as (t_acc & loss & w1 & Hit & Hclip & Htu & Hstep).
  cbv zeta in Htu, Hstep.
  destruct (iterations_facts Hit) as (Ht & _ & _).
  rewrite Hstep, Htu, !emitted_run.
  set (rep := emitted (report tc last_step loss _ _)).
  assert (Hall : filter is_clip
                   (t_acc ++ clip_calls tc (groups w)
                      ++ [OptimizerStep; ZeroGrad; UpdateLr last_step] ++ rep)
                 = clip_calls tc (groups w)).
  { rewrite !filter_app.
    rewrite (acc_trace_filter_none is_clip Ht) by kinds.
    rewrite (filter_all is_clip (clip_calls tc (groups w)))
      by (apply clip_calls_kinds).
    unfold rep. rewrite report_filter_none by kinds.
    simpl. apply app_nil_r. }
  split; [exact Hall|]. split; [|split].
  - exists t_acc, (ZeroGrad :: UpdateLr last_step :: rep), loss, w1.
    split; [exact Hit|]. split; [exact Ht|]. split; [reflexivity|]. split.
    + apply (acc_trace_filter_none is_clip Ht). kinds.
    + split; [|split; [rewrite Hclip; reflexivity|reflexivity]].
      simpl. unfold rep. apply report_filter_none. kinds.
  - intros c Hc Hnz Hb. rewrite Hall. unfold clip_calls, after_clipping.
    rewrite Hc, Hb. apply Z.eqb_neq in Hnz. rewrite Hnz.
    split; reflexivity.
  - intros Hoff. rewrite Hall. unfold clip_calls, after_clipping, truthy in *.
    destruct (clip_grad tc) as [c|]; [|split; reflexivity].
    destruct Hoff as [Hz|Hb]; [rewrite Hz|rewrite Hb, andb_false_r];
      split; reflexivity.
Qed.

(** C6. After the optimizer step and the gradient reset, a step calls
    the scheduler's update once, with the step index.  The rates handed to
    the report are the scheduler's answer when it gives one, and when it
    gives none they are the rates of the optimizer's parameter groups as
    the update left them, one per group. *)
Theorem step_updates_lr_after_optimizer_step w :
  let before := train_and_update X tc last_step enc ali dec w in
  let w4 := final before in
  let upd := update_lr X last_step (groups w4) (ext w4) in
  let reported :=
    match fst (fst upd) with
    | None => map g_lr (snd (fst upd))
    | Some rates => rates
    end in
  let w5 := {| model_parameters := model_parameters w4;
               groups := snd (fst upd); ext := snd upd |} in
  exists loss pre,
    before = (Ok loss, w4, pre ++ [OptimizerStep; ZeroGrad]) /\
    count is_update_lr pre = 0%nat /\
    step X tc last_step enc ali dec w =
      (outcome (report (batch:=batch) tc last_step loss reported w5), w5,
       pre ++ [OptimizerStep; ZeroGrad; UpdateLr last_step]
           ++ emitted (report tc last_step loss reported w5)) /\
    count is_update_lr (emitted (step X tc last_step enc ali dec w)) = 1%nat /\
    (fst (fst upd) = None ->
     reported = map g_lr (groups w5) /\
     List.length reported = List.length (groups w5)) /\
    (forall rates, fst (fst upd) = Some rates -> reported = rates).
Proof.
  cbv zeta.
  destruct (step_run X tc last_step enc ali dec w)
    as (w4 & t_acc & Hrun & Ht & _ & outer_lr & Hout & Hstep).
  cbv zeta in Hstep. rewrite Hrun. unfold final at 1 2 3 4 5 6 7 8 9 10. simpl fst. simpl snd.
  rewrite log_lr_run in Hout, Hstep. unfold outcome in Hout. simpl in Hout.
  injection Hout as <-. unfold final in Hstep at 1 2. simpl fst in Hstep. simpl snd in Hstep.
  exists (last_loss t_acc), (t_acc ++ clip_calls tc (groups w)).
  assert (Hpre : count is_update_lr (t_acc ++ clip_calls tc (groups w)) = 0%nat).
  { rewrite count_app. unfold count.
    rewrite (acc_trace_filter_none is_update_lr Ht) by kinds.
    rewrite clip_calls_filter_none by kinds. reflexivity. }
  split; [rewrite <- app_assoc; reflexivity|]. split; [exact Hpre|].
  split; [rewrite Hstep, <- app_assoc; reflexivity|]. split; [|split].
  - rewrite Hstep, emitted_run.
    rewrite app_assoc, count_app, Hpre, count_app. unfold count at 2.
    rewrite report_filter_none by kinds. reflexivity.
  - intros Hnone. rewrite Hnone. simpl. split; [reflexivity|apply length_map].
  - intros rates Hsome. rewrite Hsome. reflexivity.
Qed.
(** With at least one accumulation iteration the loop binds [loss]. *)
Lemma acc_trace_binds_loss (t_acc : list (event batch)) :
  0 < num_batch_accumulated tc ->
  acc_trace last_step (Z.to_nat (num_batch_accumulated tc)) t_acc ->
  exists l, last_loss t_acc = Some l.
Proof.
  intros Hpos Ht.
  destruct (Z.to_nat (num_batch_accumulated tc)) as [|k] eqn:Hk; [lia|].
  exact (acc_trace_last_loss Ht).
Qed.

(** What reaches the tracker is what the report sends. *)
Lemma step_tracker_calls w :
  exists w4 t_acc,
    acc_trace last_step (Z.to_nat (num_batch_accumulated tc)) t_acc /\
    train_and_update X tc last_step enc ali dec w =
      (Ok (last_loss t_acc), w4,
       t_acc ++ clip_calls tc (groups w) ++ [OptimizerStep; ZeroGrad]) /\
    let lrs := log_lr X last_step w4 in
    exists outer_lr,
      outcome lrs = Ok outer_lr /\
      let rep := report tc last_step (last_loss t_acc) outer_lr (final lrs) in
      outcome (step X tc last_step enc ali dec w) = outcome rep /\
      final (step X tc last_step enc ali dec w) = final lrs /\
      last_loss (emitted (step X tc last_step enc ali dec w)) = last_loss t_acc /\
      (forall e, In e (emitted rep) ->
                 In e (emitted (step X tc last_step enc ali dec w))) /\
      filter is_wandb (emitted (step X tc last_step enc ali dec w)) =
        filter is_wandb (emitted rep).
Proof.
  destruct (step_run X tc last_step enc ali dec w)
    as (w4 & t_acc & Hrun & Ht & _ & outer_lr & Hout & Hstep).
  exists w4, t_acc. split; [exact Ht|]. split; [exact Hrun|].
  cbv zeta in *. exists outer_lr. split; [exact Hout|].
  rewrite Hstep, emitted_run. unfold outcome at 1, final at 1. simpl fst. simpl snd.
  split; [reflexivity|]. split; [reflexivity|]. split; [|split].
  - rewrite !last_loss_app.
    rewrite (last_loss_none (emitted (report tc last_step (last_loss t_acc)
                                             outer_lr (final (log_lr X last_step w4)))))
      by (intros e He; apply report_kinds in He; destruct e;
          try discriminate He; reflexivity).
    simpl. rewrite (last_loss_none (clip_calls tc (groups w)))
      by (intros e He; apply clip_calls_kinds in He; destruct e;
          try discriminate He; reflexivity).
    reflexivity.
  - intros e He. rewrite !in_app_iff. right. right. right. exact He.
  - rewrite !filter_app.
    rewrite (acc_trace_filter_none is_wandb Ht) by kinds.
    rewrite clip_calls_filter_none by kinds. reflexivity.
Qed.

(** With at least one iteration, the loss the loop hands over is the one
    the training call of the last iteration returned. *)
Lemma iterations_bind_loss w0 (t_acc : list (event batch)) loss w1 :
  0 < num_batch_accumulated tc ->
  iterations X tc last_step enc ali dec (Z.to_nat (num_batch_accumulated tc))
             w0 None t_acc loss w1 ->
  exists t_k l_k w_k inner outer e1,
    iterations X tc last_step enc ali dec
               (Z.to_nat (num_batch_accumulated tc - 1)) w0 None t_k l_k w_k /\
    get_batch X last_step (ext w_k) = ((inner, outer), e1) /\
    loss = Some (fst (fst (meta_train X enc ali dec inner outer (inner_opt tc)
                                      (model_parameters w_k) e1))).
Proof.
  intros Hpos Hit.
  replace (Z.to_nat (num_batch_accumulated tc))
    with (S (Z.to_nat (num_batch_accumulated tc - 1))) in Hit by lia.
  exact (iterations_last Hit).
Qed.

(** C5, as the code has it. For a step with at least one accumulation
    iteration and a non-zero reporting interval: when the interval
    divides the step index, the tracker receives the loss that the
    training call of the last iteration returned, the inner learning rate
    and then one value per rate used for reporting (the rates the
    scheduler reported or, when it reported none, the rates of the
    parameter groups, one per group), numbered from 0, all with the step
    index, and nothing else; otherwise the tracker receives nothing; the
    step returns normally in both cases. *)
Theorem step_tracks_metrics_on_cadence w :
  0 < num_batch_accumulated tc ->
  report_every_n tc <> 0 ->
  let run := step X tc last_step enc ali dec w in
  let w4 := final (train_and_update X tc last_step enc ali dec w) in
  let upd := update_lr X last_step (groups w4) (ext w4) in
  let outer_lr :=
    match fst (fst upd) with
    | None => map g_lr (snd (fst upd))
    | Some rates => rates
    end in
  exists t_k l_k w_k inner outer e1,
    iterations X tc last_step enc ali dec
               (Z.to_nat (num_batch_accumulated tc - 1))
               (final (init_grads (batch:=batch) w)) None t_k l_k w_k /\
    get_batch X last_step (ext w_k) = ((inner, outer), e1) /\
    let loss := fst (fst (meta_train X enc ali dec inner outer (inner_opt tc)
                                     (model_parameters w_k) e1)) in
    outcome run = Ok tt /\
    ((report_every_n tc | last_step) ->
     filter is_wandb (emitted run) = tracked tc last_step loss outer_lr) /\
    (~ (report_every_n tc | last_step) -> filter is_wandb (emitted run) = []) /\
    (fst (fst upd) = None ->
     List.length outer_lr = List.length (groups (final run))).
Proof.
  intros Hpos Hn. cbv zeta.
  destruct (step_worlds X tc last_step enc ali dec w)
    as (t_acc & loss & w1 & Hit & _ & Htu & Hstep).
  cbv zeta in Htu, Hstep.
  destruct (iterations_facts Hit) as (Ht & _ & _).
  destruct (iterations_bind_loss Hpos Hit)
    as (t_k & l_k & w_k & inner & outer & e1 & Hitk & Hget & Hl).
  exists t_k, l_k, w_k, inner, outer, e1.
  split; [exact Hitk|]. split; [exact Hget|].
  rewrite Hstep, Htu. clear Hstep Htu. subst loss.
  unfold final, outcome. cbn [fst snd groups ext]. rewrite !emitted_run.
  rewrite report_run. apply Z.eqb_neq in Hn. rewrite Hn. apply Z.eqb_neq in Hn.
  assert (Hpre : forall rep : list (event batch),
             filter is_wandb
                    (t_acc ++ clip_calls tc (groups w)
                       ++ [OptimizerStep; ZeroGrad; UpdateLr last_step] ++ rep)
             = filter is_wandb rep).
  { intros rep. rewrite !filter_app.
    rewrite (acc_trace_filter_none is_wandb Ht) by kinds.
    rewrite clip_calls_filter_none by kinds. reflexivity. }
  set (upd := update_lr X last_step (groups w) _).
  assert (Hlen : fst (fst upd) = None ->
                 List.length match fst (fst upd) with
                             | Some rates => rates
                             | None => map g_lr (snd (fst upd))
                             end
                 = List.length (snd (fst upd))).
  { intros Hnone. rewrite Hnone. apply length_map. }
  destruct (Z.eqb_spec (last_step mod report_every_n tc) 0) as [Hmod|Hmod];
    cbn [fst snd].
  - split; [reflexivity|]. split; [|split; [|exact Hlen]].
    + intros _. rewrite Hpre. apply tracked_filter.
    + intros Hnd. exfalso. apply Hnd. apply Z.mod_divide; assumption.
  - split; [reflexivity|]. split; [|split; [|exact Hlen]].
    + intros Hd. exfalso. apply Hmod. apply Z.mod_divide; assumption.
    + intros _. rewrite Hpre. reflexivity.
Qed.

(** C10. In a step with at least one accumulation iteration, the local
    [loss] that reaches the report is the loss that [meta_train]
    returned in the last iteration, on the task fetched in that iteration
    and in the world the iterations before left; it is also the loss of
    the last training call of the trace.  On a reporting step (non-zero
    interval dividing the step index) that value is the one logged and
    the one sent to the tracker as training loss.  An iteration of the
    loop does not read the value [loss] had before: two runs of one or
    more iterations that differ only in that value coincide. *)
Theorem step_reports_loss_of_last_iteration w :
  0 < num_batch_accumulated tc ->
  let run := step X tc last_step enc ali dec w in
  let w4 := final (train_and_update X tc last_step enc ali dec w) in
  let upd := update_lr X last_step (groups w4) (ext w4) in
  let outer_lr :=
    match fst (fst upd) with
    | None => map g_lr (snd (fst upd))
    | Some rates => rates
    end in
  exists l,
    (exists t_k l_k w_k inner outer e1,
        iterations X tc last_step enc ali dec
                   (Z.to_nat (num_batch_accumulated tc - 1))
                   (final (init_grads (batch:=batch) w)) None t_k l_k w_k /\
        get_batch X last_step (ext w_k) = ((inner, outer), e1) /\
        l = fst (fst (meta_train X enc ali dec inner outer (inner_opt tc)
                                 (model_parameters w_k) e1))) /\
    last_loss (emitted run) = Some l /\
    outcome (train_and_update X tc last_step enc ali dec w) = Ok (Some l) /\
    (report_every_n tc <> 0 -> last_step mod report_every_n tc = 0 ->
     outcome run = Ok tt /\
     In (Log (LoggerInfo (StepLoss last_step l))) (emitted run) /\
     filter is_wandb (emitted run) = tracked tc last_step l outer_lr) /\
    (forall k l1 l2 w',
        accumulate X tc last_step enc ali dec (S k) l1 w' =
        accumulate X tc last_step enc ali dec (S k) l2 w').
Proof.
  intros Hpos. cbv zeta.
  destruct (step_worlds X tc last_step enc ali dec w)
    as (t_acc & loss & w1 & Hit & _ & Htu & Hstep).
  cbv zeta in Htu, Hstep.
  destruct (iterations_facts Hit) as (Ht & _ & Hlast).
  destruct (iterations_bind_loss Hpos Hit)
    as (t_k & l_k & w_k & inner & outer & e1 & Hitk & Hget & Hl).
  exists (fst (fst (meta_train X enc ali dec inner outer (inner_opt tc)
                               (model_parameters w_k) e1))).
  split; [exists t_k, l_k, w_k, inner, outer, e1; repeat split; assumption|].
  rewrite Hstep, Htu. clear Hstep Htu.
  unfold final, outcome. cbn [fst snd groups ext]. rewrite !emitted_run.
  set (upd := update_lr X last_step (groups w) _).
  assert (Hll : last_loss t_acc = loss).
  { rewrite Hlast. rewrite Hl in Hlast. destruct (last_loss t_acc); [reflexivity|].
    discriminate Hlast. }
  split; [|split; [exact (f_equal Ok Hl)|split]].
  - rewrite !last_loss_app.
    rewrite (last_loss_none (emitted (report tc last_step loss _ _)))
      by (intros e He; apply report_kinds in He;
          destruct e; try discriminate He; reflexivity).
    simpl. rewrite (last_loss_none (clip_calls tc (groups w)))
      by (intros e He; apply clip_calls_kinds in He; destruct e;
          try discriminate He; reflexivity).
    rewrite Hll. exact Hl.
  - intros Hn Hmod. rewrite report_run. apply Z.eqb_neq in Hn. rewrite Hn.
    apply Z.eqb_eq in Hmod. rewrite Hmod, Hl. cbn [fst snd].
    split; [reflexivity|]. split.
    + rewrite !in_app_iff. right. right. right. left. reflexivity.
    + rewrite !filter_app.
      rewrite (acc_trace_filter_none is_wandb Ht) by kinds.
      rewrite clip_calls_filter_none by kinds. apply tracked_filter.
  - intros k l1 l2 w'. reflexivity.
Qed.
End StepClaims.

(** ** The properties at work on the sample run *)

Example load_train_config_sample :
  load_train_config sample_config None =
  (Ok tt, Some sample_config, [LoggerWarn (Text warn_accumulation)]).
Proof. reflexivity. Qed.

Example load_train_config_unclipped :
  load_train_config unclipped_config None =
  (Ok tt, Some unclipped_config, [LoggerInfo (Text recommend_clipping)]).
Proof. reflexivity. Qed.

(** One step of the sample run on a reporting step. *)
Example sample_step_trace :
  emitted (step sample_externals sample_config 10 [] [] [] sample_world) =
  [GetBatch 10; MetaTrain 0%nat [0; 1]%nat (0 # 1)%Q;
   GetBatch 10; MetaTrain 1%nat [1; 2]%nat (1 # 1)%Q;
   GetBatch 10; MetaTrain 2%nat [2; 3]%nat (2 # 1)%Q;
   ClipGradNorm [2%nat] (1 # 1)%Q; ClipGradNorm [0; 1]%nat (1 # 1)%Q;
   OptimizerStep; ZeroGrad; UpdateLr 10;
   Log (LoggerInfo (StepLoss 10 (2 # 1)%Q));
   Log (LoggerInfo (StepLr 10 (1 # 100)%Q [(1 # 1000)%Q; (2 # 100000)%Q]));
   WandbLog "train_loss" (2 # 1)%Q 10;
   WandbLog "inner_lr" (1 # 100)%Q 10;
   WandbLog "outer_lr_0" (1 # 1000)%Q 10;
   WandbLog "outer_lr_1" (2 # 100000)%Q 10].
Proof. reflexivity. Qed.

(** C5, as stated, fails.  On step 10 with interval 5 and an optimizer
    of two parameter groups, a scheduler that reports a single rate has
    that one rate sent to the tracker, not one per group; and a step
    without accumulation iterations raises on the unbound [loss] after
    the optimizer step and sends nothing, although the interval divides
    the step index. *)
Lemma tracker_gets_reported_rates_not_group_rates :
  (report_every_n sample_config | 10) /\
  List.length (groups sample_world) = 2%nat /\
  List.length (groups (final (step reporting_externals sample_config 10 [] [] []
                                   sample_world))) = 2%nat /\
  filter is_wandb
         (emitted (step reporting_externals sample_config 10 [] [] [] sample_world)) =
  [WandbLog "train_loss" (2 # 1)%Q 10;
   WandbLog "inner_lr" (1 # 100)%Q 10;
   WandbLog "outer_lr_0" (1 # 10)%Q 10] /\
  (report_every_n idle_config | 10) /\
  outcome (step sample_externals idle_config 10 [] [] [] sample_world)
    = Raise UnboundLocalError /\
  emitted (step sample_externals idle_config 10 [] [] [] sample_world)
    = [OptimizerStep; ZeroGrad; UpdateLr 10].
Proof.
  split; [exists 2; reflexivity|].
  split; [reflexivity|]. split; [reflexivity|]. split; [reflexivity|].
  split; [exists 2; reflexivity|].
  split; reflexivity.
Qed.

(** C2, as stated, fails.  The check is against all parameters of the
    model, not against the trainable ones: subsets that add up to the
    number of trainable parameters are refused when the model has one
    parameter more, and subsets that do not add up to the number of
    trainable parameters are accepted when they add up to the number of
    all parameters. *)
Lemma partition_check_counts_all_parameters :
  (List.length (get_non_bert_parameters frozen_model)
   + List.length (get_bert_parameters frozen_model))%nat
  = List.length (get_trainable_parameters frozen_model) /\
  outcome (load_optimizer sample_construct_optimizer sample_config frozen_model
                          sample_run_config []) = Raise AssertionError /\
  (List.length (get_non_bert_parameters frozen_bert_model)
   + List.length (get_bert_parameters frozen_bert_model))%nat
  <> List.length (get_trainable_parameters frozen_bert_model) /\
  exists res,
    outcome (load_optimizer sample_construct_optimizer sample_config
                            frozen_bert_model sample_run_config []) = Ok res.
Proof.
  split; [reflexivity|]. split; [reflexivity|]. split; [discriminate|].
  eexists. reflexivity.
Qed.

(** C1, as stated, fails: a threshold of 1 is configured and the
    optimizer has two parameter groups, but BERT training is off and the
    step clips nothing. *)
Lemma threshold_without_bert_training_clips_nothing :
  clip_grad plain_config = Some (1 # 1)%Q /\
  List.length (groups sample_world) = 2%nat /\
  filter is_clip
         (emitted (step sample_externals plain_config 10 [] [] [] sample_world)) = [] /\
  count is_optimizer_step
        (emitted (step sample_externals plain_config 10 [] [] [] sample_world)) = 1%nat.
Proof. repeat split. Qed.

Lemma step_clips_groups_under_bert_training_witness :
  filter is_clip
         (emitted (step sample_externals sample_config 10 [] [] [] sample_world)) =
  [ClipGradNorm [2%nat] (1 # 1)%Q; ClipGradNorm [0; 1]%nat (1 # 1)%Q].
Proof.
  destruct (step_clips_groups_under_bert_training
              sample_externals sample_config 10 [] [] [] sample_world)
    as (_ & _ & Hon & _).
  apply (Hon (1 # 1)%Q); [reflexivity|discriminate|reflexivity].
Defined.

Lemma load_optimizer_asserts_partition_witness :
  use_bert_training sample_config = true /\
  (List.length (get_non_bert_parameters leaky_model)
   + List.length (get_bert_parameters leaky_model))%nat
  <> List.length (parameters leaky_model) /\
  outcome (load_optimizer sample_construct_optimizer sample_config leaky_model
                          sample_run_config []) = Raise AssertionError /\
  exists o s,
    outcome (load_optimizer sample_construct_optimizer sample_config sample_model
                            sample_run_config [])
    = Ok ({| maml_inner_lr := inner_lr sample_config;
             maml_first_order := first_order sample_config;
             maml_num_particles := num_particles sample_config |}, o, s).
Proof.
  split; [reflexivity|]. split; [discriminate|]. split.
  - apply (load_optimizer_asserts_partition
             sample_construct_optimizer sample_config leaky_model
             sample_run_config [] eq_refl).
    discriminate.
  - apply (load_optimizer_asserts_partition
             sample_construct_optimizer sample_config sample_model
             sample_run_config [] eq_refl).
    + reflexivity.
    + apply Nat.lt_0_succ.
Defined.

Lemma load_optimizer_asserts_bert_nonempty_witness :
  use_bert_training sample_config = true /\
  List.length (get_bert_parameters bertless_model) = 0%nat /\
  (List.length (get_non_bert_parameters bertless_model)
   + List.length (get_bert_parameters bertless_model))%nat
  = List.length (parameters bertless_model) /\
  outcome (load_optimizer sample_construct_optimizer sample_config bertless_model
                          sample_run_config []) = Raise AssertionError /\
  exists o s,
    outcome (load_optimizer sample_construct_optimizer sample_config sample_model
                            sample_run_config [])
    = Ok ({| maml_inner_lr := inner_lr sample_config;
             maml_first_order := first_order sample_config;
             maml_num_particles := num_particles sample_config |}, o, s).
Proof.
  split; [reflexivity|]. split; [reflexivity|]. split; [reflexivity|]. split.
  - apply (load_optimizer_asserts_bert_nonempty
             sample_construct_optimizer sample_config bertless_model
             sample_run_config [] eq_refl).
    reflexivity.
  - apply (load_optimizer_asserts_bert_nonempty
             sample_construct_optimizer sample_config sample_model
             sample_run_config [] eq_refl).
    + apply Nat.lt_0_succ.
    + reflexivity.
Defined.

Lemma step_tracks_metrics_on_cadence_witness :
  0 < num_batch_accumulated sample_config /\
  report_every_n sample_config <> 0 /\
  (report_every_n sample_config | 10) /\
  outcome (step sample_externals sample_config 10 [] [] [] sample_world) = Ok tt /\
  exists loss,
    filter is_wandb
           (emitted (step sample_externals sample_config 10 [] [] [] sample_world))
    = tracked sample_config 10 loss [(1 # 1000)%Q; (2 # 100000)%Q].
Proof.
  assert (Hpos : 0 < num_batch_accumulated sample_config) by reflexivity.
  assert (Hn : report_every_n sample_config <> 0) by discriminate.
  assert (Hd : (report_every_n sample_config | 10)) by (exists 2; reflexivity).
  split; [exact Hpos|]. split; [exact Hn|]. split; [exact Hd|].
  destruct (step_tracks_metrics_on_cadence
              sample_externals sample_config 10 [] [] [] sample_world Hpos Hn)
    as (t_k & l_k & w_k & inner & outer & e1 & _ & _ & Hok & Hon & _).
  split; [exact Hok|]. eexists. exact (Hon Hd).
Defined.

Lemma step_reports_loss_of_last_iteration_witness :
  0 < num_batch_accumulated sample_config /\
  exists l,
    last_loss (emitted (step sample_externals sample_config 10 [] [] [] sample_world))
      = Some l /\
    outcome (train_and_update sample_externals sample_config 10 [] [] [] sample_world)
      = Ok (Some l) /\
    In (Log (LoggerInfo (StepLoss 10 l)))
       (emitted (step sample_externals sample_config 10 [] [] [] sample_world)).
Proof.
  assert (Hpos : 0 < num_batch_accumulated sample_config) by reflexivity.
  split; [exact Hpos|].
  destruct (step_reports_loss_of_last_iteration
              sample_externals sample_config 10 [] [] [] sample_world Hpos)
    as (l & _ & Hlast & Hret & Hrep & _).
  exists l. split; [exact Hlast|]. split; [exact Hret|].
  apply Hrep; [discriminate|reflexivity].
Defined.

(** * Further properties *)

(** ** Reading traces by kind *)

Section ReadingFacts.
Context {batch : Type}.
Implicit Types (t : list (event batch)).

Lemma flat_map_none {A B} (f : A -> list B) (l : list A) :
  (forall a, In a l -> f a = []) -> flat_map f l = [].
Proof.
  induction l as [|a l IH]; intros H; simpl; [reflexivity|].
  rewrite (H a (or_introl eq_refl)). apply IH.
  intros a' Ha'. apply H. right. exact Ha'.
Qed.

Lemma logged_app t1 t2 : logged (t1 ++ t2) = logged t1 ++ logged t2.
Proof. apply flat_map_app. Qed.

Lemma tracker_keys_app t1 t2 :
  tracker_keys (t1 ++ t2) = tracker_keys t1 ++ tracker_keys t2.
Proof. apply flat_map_app. Qed.

(** A trace without logger and tracker events has nothing to read. *)
Lemma logged_none t :
  (forall e, In e t -> is_report e = false) -> logged t = [].
Proof.
  intros H. apply flat_map_none. intros e He.
  specialize (H e He). destruct e; try reflexivity; discriminate.
Qed.

Lemma tracker_keys_none t :
  (forall e, In e t -> is_report e = false) -> tracker_keys t = [].
Proof.
  intros H. apply flat_map_none. intros e He.
  specialize (H e He). destruct e; try reflexivity; discriminate.
Qed.

Lemma acc_trace_not_report s k t e :
  acc_trace s k t -> In e t -> is_report e = false.
Proof.
  intros Ht He. destruct (acc_trace_kinds Ht e He) as [H|H];
    destruct e; try discriminate H; reflexivity.
Qed.

Lemma clip_calls_not_report (tc : MetaTrainConfig) gs (e : event batch) :
  In e (clip_calls tc gs) -> is_report e = false.
Proof.
  intros He. apply clip_calls_kinds in He.
  destruct e; try discriminate He; reflexivity.
Qed.

Lemma acc_trace_zero s t : acc_trace s 0 t -> t = [].
Proof. inversion 1. reflexivity. Qed.

(** The tracker keys of a report: the two fixed ones, then one per rate. *)
Lemma tracked_keys (tc : MetaTrainConfig) s l (outer : list Q) :
  tracker_keys (tracked (batch:=batch) tc s l outer) =
  "train_loss" :: "inner_lr" :: map outer_lr_key (seq 0 (List.length outer)).
Proof.
  unfold tracked, tracker_keys, enumerate. cbn [flat_map app]. do 2 f_equal.
  generalize 0%nat as i.
  induction outer as [|r outer IH]; intros i; simpl; [reflexivity|].
  rewrite IH. reflexivity.
Qed.
End ReadingFacts.

Lemma logged_tracked {batch : Type} (tc : MetaTrainConfig) s l (outer : list Q) :
  logged (tracked (batch:=batch) tc s l outer) = [].
Proof.
  apply flat_map_none. intros e He. apply tracked_kinds in He.
  destruct e; try discriminate He; reflexivity.
Qed.

Lemma outcome_run {S Ev A : Type} (r : result A) (s : S) (t : list Ev) :
  outcome (r, s, t) = r.
Proof. reflexivity. Qed.

Lemma final_run {S Ev A : Type} (r : result A) (s : S) (t : list Ev) :
  final (r, s, t) = s.
Proof. reflexivity. Qed.

(** The key of a rate determines its index. *)
Lemma outer_lr_key_injective : Injective outer_lr_key.
Proof.
  intros i j H. unfold outer_lr_key in H. simpl in H.
  injection H as H.
  assert (Hu : Some (Nat.to_uint i) = Some (Nat.to_uint j)).
  { rewrite <- !NilEmpty.usu. rewrite H. reflexivity. }
  injection Hu as Hu.
  rewrite <- (Unsigned.of_to i), <- (Unsigned.of_to j), Hu. reflexivity.
Qed.

Lemma tracked_keys_NoDup {batch : Type} (tc : MetaTrainConfig) s l (outer : list Q) :
  NoDup (tracker_keys (tracked (batch:=batch) tc s l outer)).
Proof.
  rewrite tracked_keys.
  assert (Hfix : forall k, In k (map outer_lr_key (seq 0 (List.length outer))) ->
                           k <> "train_loss" /\ k <> "inner_lr").
  { intros k Hk. apply in_map_iff in Hk. destruct Hk as [i [<- _]].
    unfold outer_lr_key. simpl. split; discriminate. }
  constructor; [|constructor].
  - intros [H|H]; [discriminate H|]. apply Hfix in H. destruct H as [H _].
    apply H. reflexivity.
  - intros H. apply Hfix in H. destruct H as [_ H]. apply H. reflexivity.
  - apply Injective_map_NoDup; [exact outer_lr_key_injective|apply seq_NoDup].
Qed.

(** ** More on the training step *)

Section StepExtras.
Context {E batch : Type} (X : externals E batch).
Variables (tc : MetaTrainConfig) (last_step : Z) (enc ali dec : list pid).
Implicit Types (w : world E).

(** Without iterations the loop emits nothing. *)
Lemma acc_trace_unbound_loss (t_acc : list (event batch)) :
  num_batch_accumulated tc <= 0 ->
  acc_trace last_step (Z.to_nat (num_batch_accumulated tc)) t_acc ->
  t_acc = [].
Proof.
  intros Hle Ht.
  replace (Z.to_nat (num_batch_accumulated tc)) with 0%nat in Ht by lia.
  exact (acc_trace_zero Ht).
Qed.

(** The part of a step's trace that precedes the report holds no logger
    or tracker event. *)
Lemma before_report_silent (t_acc : list (event batch)) w :
  acc_trace last_step (Z.to_nat (num_batch_accumulated tc)) t_acc ->
  forall e,
    In e (t_acc ++ clip_calls tc (groups w)
                ++ [OptimizerStep; ZeroGrad; UpdateLr last_step]) ->
    is_report e = false.
Proof.
  intros Ht e He. rewrite !in_app_iff in He.
  destruct He as [He|[He|He]].
  - eapply acc_trace_not_report; eassumption.
  - eapply clip_calls_not_report; eassumption.
  - destruct He as [<-|[<-|[<-|[]]]]; reflexivity.
Qed.

Lemma last_loss_before_report (t_acc rep : list (event batch)) w :
  acc_trace last_step (Z.to_nat (num_batch_accumulated tc)) t_acc ->
  (forall e, In e rep -> is_report e = true) ->
  last_loss (t_acc ++ clip_calls tc (groups w)
                   ++ [OptimizerStep; ZeroGrad; UpdateLr last_step] ++ rep)
  = last_loss t_acc.
Proof.
  intros Ht Hrep. rewrite !last_loss_app.
  rewrite (last_loss_none rep)
    by (intros e He; apply Hrep in He; destruct e; try discriminate He; reflexivity).
  simpl. rewrite (last_loss_none (clip_calls tc (groups w)))
    by (intros e He; apply clip_calls_kinds in He; destruct e;
        try discriminate He; reflexivity).
  reflexivity.
Qed.

(** X1. The two failures of the report, in a step whose collaborators
    return.  With a reporting interval of zero the step raises
    [ZeroDivisionError]; with an interval that divides the step index and
    an accumulation count below one it raises [UnboundLocalError] on the
    unbound [loss].  Either way the step has by then run its
    accumulation iterations and clipping calls, stepped the optimizer,
    reset the gradients and updated the schedule, and these effects
    stay; nothing was logged or sent to the tracker. *)
Theorem step_report_failures w :
  report_every_n tc = 0 \/
  (last_step mod report_every_n tc = 0 /\ num_batch_accumulated tc <= 0) ->
  outcome (step X tc last_step enc ali dec w) =
    (if report_every_n tc =? 0 then Raise ZeroDivisionError
     else Raise UnboundLocalError) /\
  (exists t_acc,
     acc_trace last_step (Z.to_nat (num_batch_accumulated tc)) t_acc /\
     emitted (step X tc last_step enc ali dec w) =
       t_acc ++ clip_calls tc (groups w)
             ++ [OptimizerStep; ZeroGrad; UpdateLr last_step]) /\
  filter is_report (emitted (step X tc last_step enc ali dec w)) = [] /\
  final (step X tc last_step enc ali dec w) =
    final (log_lr X last_step
                  (final (train_and_update X tc last_step enc ali dec w))).
Proof.
  intros Hfail.
  destruct (step_run X tc last_step enc ali dec w)
    as (w4 & t_acc & Hrun & Ht & _ & outer_lr & _ & Hstep).
  cbv zeta in Hstep. rewrite Hstep, Hrun.
  rewrite !outcome_run, !final_run, !emitted_run.
  pose proof (before_report_silent w Ht) as Hsilent.
  rewrite report_run.
  assert (Hraise :
            (if report_every_n tc =? 0
             then (Raise ZeroDivisionError,
                   final (log_lr X last_step w4), @nil (event batch))
             else if last_step mod report_every_n tc =? 0
                  then match last_loss t_acc with
                       | Some l =>
                           (Ok tt, final (log_lr X last_step w4),
                            Log (LoggerInfo (StepLoss last_step l))
                            :: Log (LoggerInfo
                                      (StepLr last_step (lr (inner_opt tc)) outer_lr))
                            :: tracked tc last_step l outer_lr)
                       | None =>
                           (Raise UnboundLocalError,
                            final (log_lr X last_step w4), [])
                       end
                  else (Ok tt, final (log_lr X last_step w4), []))
            = ((if report_every_n tc =? 0 then Raise ZeroDivisionError
                else Raise UnboundLocalError),
               final (log_lr X last_step w4), [])).
  { destruct (Z.eqb_spec (report_every_n tc) 0) as [Hz|Hnz]; [reflexivity|].
    destruct Hfail as [Hz|[Hmod Hle]]; [contradiction|].
    apply Z.eqb_eq in Hmod. rewrite Hmod.
    rewrite (acc_trace_unbound_loss Hle Ht). reflexivity. }
  rewrite Hraise, outcome_run, emitted_run.
  split; [reflexivity|]. split; [|split; [|reflexivity]].
  - exists t_acc. split; [exact Ht|reflexivity].
  - apply filter_none. exact Hsilent.
Qed.

(** X3. In a step with at least one accumulation iteration and a
    non-zero reporting interval, the logger is called on reporting steps
    only, and then exactly twice, both at info level and before any
    tracker call: first with the step index and the loss that the
    training call of the last iteration returned, then with the step
    index, the inner learning rate and the outer rates. *)
Theorem step_logs_on_cadence w :
  0 < num_batch_accumulated tc ->
  report_every_n tc <> 0 ->
  let run := step X tc last_step enc ali dec w in
  let w4 := final (train_and_update X tc last_step enc ali dec w) in
  let upd := update_lr X last_step (groups w4) (ext w4) in
  let outer_lr :=
    match fst (fst upd) with
    | None => map g_lr (snd (fst upd))
    | Some rates => rates
    end in
  exists t_k l_k w_k inner outer e1,
    iterations X tc last_step enc ali dec
               (Z.to_nat (num_batch_accumulated tc - 1))
               (final (init_grads (batch:=batch) w)) None t_k l_k w_k /\
    get_batch X last_step (ext w_k) = ((inner, outer), e1) /\
    let l := fst (fst (meta_train X enc ali dec inner outer (inner_opt tc)
                                  (model_parameters w_k) e1)) in
    last_loss (emitted run) = Some l /\
    (last_step mod report_every_n tc = 0 ->
     logged (emitted run) =
       [LoggerInfo (StepLoss last_step l);
        LoggerInfo (StepLr last_step (lr (inner_opt tc)) outer_lr)] /\
     exists pre,
       filter is_report pre = [] /\
       emitted run =
         pre ++ Log (LoggerInfo (StepLoss last_step l))
             :: Log (LoggerInfo (StepLr last_step (lr (inner_opt tc)) outer_lr))
             :: tracked tc last_step l outer_lr) /\
    (last_step mod report_every_n tc <> 0 -> logged (emitted run) = []).
Proof.
  intros Hpos Hn. cbv zeta.
  destruct (step_worlds X tc last_step enc ali dec w)
    as (t_acc & loss & w1 & Hit & _ & Htu & Hstep).
  cbv zeta in Htu, Hstep.
  destruct (iterations_facts Hit) as (Ht & _ & Hlast).
  destruct (iterations_bind_loss Hpos Hit)
    as (t_k & l_k & w_k & inner & outer & e1 & Hitk & Hget & Hl).
  exists t_k, l_k, w_k, inner, outer, e1.
  split; [exact Hitk|]. split; [exact Hget|].
  rewrite Hstep, Htu, !emitted_run, !final_run. clear Hstep Htu.
  cbn [groups ext].
  pose proof (before_report_silent w Ht) as Hsilent.
  assert (Hll : last_loss t_acc = loss).
  { rewrite Hlast. rewrite Hl in Hlast. destruct (last_loss t_acc); [reflexivity|].
    discriminate Hlast. }
  split.
  { rewrite <- Hl, <- Hll. apply last_loss_before_report; [exact Ht|].
    intros e He. eapply report_kinds. exact He. }
  rewrite report_run, Hl.
  apply Z.eqb_neq in Hn. rewrite Hn.
  split.
  - intros Hmod. apply Z.eqb_eq in Hmod. rewrite Hmod, emitted_run.
    split.
    + rewrite !app_assoc, logged_app.
      rewrite logged_none
        by (intros e He; apply Hsilent; rewrite <- !app_assoc in He; exact He).
      cbn [logged flat_map app].
      match goal with
      | |- context [flat_map ?f (tracked tc last_step ?l ?o)] =>
          change (flat_map f (tracked tc last_step l o)) with
            (logged (tracked (batch:=batch) tc last_step l o))
      end.
      rewrite logged_tracked. reflexivity.
    + eexists. split; [apply filter_none; exact Hsilent|].
      rewrite <- !app_assoc. reflexivity.
  - intros Hmod. apply Z.eqb_neq in Hmod. rewrite Hmod, emitted_run.
    apply logged_none. intros e He. apply Hsilent.
    rewrite !in_app_iff in *. destruct He as [He|[He|[He|[]]]]; auto.
Qed.

(** X4. A step never writes a tracker key twice: the keys of the loss,
    of the inner rate and of the numbered outer rates are pairwise
    distinct, so no value of a step replaces another one. *)
Theorem step_tracker_keys_distinct w :
  NoDup (tracker_keys (emitted (step X tc last_step enc ali dec w))).
Proof.
  destruct (step_run X tc last_step enc ali dec w)
    as (w4 & t_acc & _ & Ht & _ & outer_lr & _ & Hstep).
  cbv zeta in Hstep. rewrite Hstep, emitted_run.
  pose proof (before_report_silent w Ht) as Hsilent.
  rewrite !app_assoc, tracker_keys_app.
  rewrite tracker_keys_none
    by (intros e He; apply Hsilent; rewrite <- !app_assoc in He; exact He).
  rewrite report_run.
  destruct (report_every_n tc =? 0); [constructor|].
  destruct (last_step mod report_every_n tc =? 0); [|constructor].
  destruct (last_loss t_acc) as [l|]; [|constructor].
  rewrite emitted_run. apply (tracked_keys_NoDup (batch:=batch)).
Qed.

(** X5. After the initialisation of a step no parameter is without a
    gradient; initialising again changes nothing, and a world whose
    parameters all have gradients is left as it is. *)
Theorem init_grads_leaves_no_grad_unset w :
  let w0 := final (init_grads (batch:=batch) w) in
  Forall (fun p => grad p <> None) (model_parameters w0) /\
  final (init_grads (batch:=batch) w0) = w0 /\
  (Forall (fun p => grad p <> None) (model_parameters w) -> w0 = w).
Proof.
  cbv zeta. unfold init_grads, modify. rewrite !final_run.
  cbn [model_parameters groups ext]. split; [|split].
  - apply Forall_forall. intros p Hp. apply in_map_iff in Hp.
    destruct Hp as [q [<- _]]. unfold zero_unset_grad.
    destruct (grad q) eqn:Hq; simpl; [rewrite Hq|]; discriminate.
  - f_equal. rewrite map_map. apply map_ext. intros p.
    unfold zero_unset_grad. destruct (grad p) eqn:Hp; simpl; [rewrite Hp|];
      reflexivity.
  - intros Hall. destruct w as [ps gs e]. cbn [model_parameters groups ext] in *.
    f_equal. rewrite <- (map_id ps) at 2. apply map_ext_in. intros p Hp.
    rewrite Forall_forall in Hall. specialize (Hall p Hp).
    unfold zero_unset_grad. destruct (grad p); [reflexivity|].
    exfalso. apply Hall. reflexivity.
Qed.

Lemma clip_loop_final (c : Q) (gs : list param_group) : forall w,
  final (for_each gs (fun g => call_clip_grad_norm_ X (params g) c) w) =
  {| model_parameters := clipped X c gs (model_parameters w);
     groups := groups w; ext := ext w |}.
Proof.
  induction gs as [|g gs IH]; intros w.
  - destruct w. reflexivity.
  - cbn [for_each]. unfold bind at 1. unfold call_clip_grad_norm_ at 1.
    specialize (IH {| model_parameters :=
                        clip_grad_norm_ X (params g) c (model_parameters w);
                      groups := groups w; ext := ext w |}).
    destruct (for_each gs _ _) as [[r w'] t]. rewrite final_run in *.
    rewrite IH. reflexivity.
Qed.

(** X6. The clipping phase touches nothing but the parameter objects:
    the groups and the collaborators' state are as before.  When it is
    active (non-zero threshold, BERT training) the parameters are what
    [clip_grad_norm_] makes of them group after group, each call working
    on the result of the call before; when it is not, they are
    unchanged. *)
Theorem clip_bert_grad_threads_gradients w :
  final (clip_bert_grad X tc w) =
  {| model_parameters :=
       match clip_grad tc with
       | Some c =>
           if negb (Qnum c =? 0) && use_bert_training tc
           then clipped X c (groups w) (model_parameters w)
           else model_parameters w
       | None => model_parameters w
       end;
     groups := groups w; ext := ext w |}.
Proof.
  unfold clip_bert_grad, truthy.
  destruct (clip_grad tc) as [c|]; simpl; [|destruct w; reflexivity].
  destruct (negb (Qnum c =? 0) && use_bert_training tc);
    [|destruct w; reflexivity].
  unfold bind, gets.
  pose proof (clip_loop_final c (groups w) w) as Hfin.
  destruct (for_each _ _ _) as [[r w'] t]. rewrite final_run in *.
  exact Hfin.
Qed.

(** X7. A step itself never edits the optimizer's parameter groups: the
    scheduler's update receives the groups the step started with, and the
    groups after the step are the ones that update left.  With a
    scheduler that leaves the groups alone a step preserves them. *)
Theorem step_groups_follow_scheduler w :
  let w4 := final (train_and_update X tc last_step enc ali dec w) in
  groups w4 = groups w /\
  groups (final (step X tc last_step enc ali dec w)) =
    snd (fst (update_lr X last_step (groups w) (ext w4))) /\
  ((forall k gs e, snd (fst (update_lr X k gs e)) = gs) ->
   groups (final (step X tc last_step enc ali dec w)) = groups w).
Proof.
  cbv zeta.
  destruct (step_run X tc last_step enc ali dec w)
    as (w4 & t_acc & Hrun & _ & Hg & outer_lr & _ & Hstep).
  cbv zeta in Hstep. rewrite Hstep, Hrun, !final_run, log_lr_run, final_run.
  cbn [groups]. rewrite Hg.
  split; [reflexivity|]. split; [reflexivity|].
  intros Hkeep. apply Hkeep.
Qed.

(** X8. A threshold of zero is taken as a threshold when the
    configuration is loaded and as none when a step runs: no
    recommendation to clip is logged, and no step clips, whether BERT
    training is enabled or not. *)
Theorem zero_threshold_is_silently_off (c : Q) (t0 : trainer) w :
  clip_grad tc = Some c ->
  Qnum c = 0 ->
  infos (emitted (load_train_config tc t0)) = [] /\
  filter is_clip (emitted (step X tc last_step enc ali dec w)) = [].
Proof.
  intros Hc Hz. split.
  - rewrite load_train_config_run, emitted_run, Hc.
    destruct (1 <? num_batch_accumulated tc); destruct (use_bert_training tc);
      reflexivity.
  - destruct (step_run X tc last_step enc ali dec w)
      as (w4 & t_acc & _ & Ht & _ & outer_lr & _ & Hstep).
    cbv zeta in Hstep. rewrite Hstep, emitted_run.
    apply filter_none. intros e He. rewrite !in_app_iff in He.
    destruct He as [He|[He|[He|He]]].
    + destruct (acc_trace_kinds Ht e He) as [H|H];
        destruct e; try discriminate H; reflexivity.
    + unfold clip_calls in He. rewrite Hc, Hz in He. destruct He.
    + destruct He as [<-|[<-|[<-|[]]]]; reflexivity.
    + apply report_kinds in He. destruct e; try discriminate He; reflexivity.
Qed.
End StepExtras.

(** ** More on optimizer construction *)

Section ConstructionExtras.
Variable construct_optimizer : spec -> optimizer_args -> heap -> optimizer * heap.
Variables (tc : MetaTrainConfig) (model : model_view) (config : run_config).

(** The four ways [load_optimizer] can run. *)
Lemma load_optimizer_cases (h : heap) :
  let run := load_optimizer construct_optimizer tc model config h in
  let maml := {| maml_inner_lr := inner_lr tc;
                 maml_first_order := first_order tc;
                 maml_num_particles := num_particles tc |} in
  let n_bert := List.length (get_bert_parameters model) in
  let n_non_bert := List.length (get_non_bert_parameters model) in
  let over l := {| sched_spec := lr_scheduler_spec config;
                   sched_param_groups := l |} in
  (use_bert_training tc = true /\
   ((n_non_bert + n_bert)%nat <> List.length (parameters model) \/ n_bert = 0%nat) /\
   run = (Raise AssertionError, h, [NewBMAML maml; ToDevice])) \/
  (use_bert_training tc = true /\
   (n_non_bert + n_bert)%nat = List.length (parameters model) /\
   (0 < n_bert)%nat /\
   let args := BertSplit (get_non_bert_parameters model)
                         (get_bert_parameters model) in
   let o := fst (construct_optimizer (cfg_optimizer config) args h) in
   let h1 := snd (construct_optimizer (cfg_optimizer config) args h) in
   run = (Ok (maml, o, over (param_groups o)),
          h1 ++ [[non_bert_param_group o; bert_param_group o]],
          [NewBMAML maml; ToDevice; InfoParamCounts n_bert n_non_bert;
           ConstructOptimizer (cfg_optimizer config) args;
           ConstructScheduler (over (List.length h1));
           ConstructScheduler (over (param_groups o))])) \/
  (use_bert_training tc = false /\
   let args := Params (get_trainable_parameters model) in
   let o := fst (construct_optimizer (cfg_optimizer config) args h) in
   let h1 := snd (construct_optimizer (cfg_optimizer config) args h) in
   run = (Ok (maml, o, over (param_groups o)), h1,
          [NewBMAML maml; ToDevice;
           ConstructOptimizer (cfg_optimizer config) args;
           ConstructScheduler (over (param_groups o));
           ConstructScheduler (over (param_groups o))])).
Proof.
  cbv zeta. destruct (use_bert_training tc) eqn:Hb.
  - destruct (Nat.eq_dec (List.length (get_non_bert_parameters model)
                          + List.length (get_bert_parameters model))
                         (List.length (parameters model))) as [Heq|Hne].
    + destruct (Nat.eq_dec (List.length (get_bert_parameters model)) 0) as [Hz|Hnz].
      * left. split; [reflexivity|]. split; [right; exact Hz|].
        exact (load_optimizer_no_bert_params construct_optimizer tc model config h Hb Hz).
      * right. left. split; [reflexivity|]. split; [exact Heq|].
        split; [lia|].
        apply (load_optimizer_bert_run construct_optimizer tc model config h Hb Heq).
        lia.
    + left. split; [reflexivity|]. split; [left; exact Hne|].
      exact (load_optimizer_partition_violated construct_optimizer tc model config h Hb Hne).
  - right. right. split; [reflexivity|].
    exact (load_optimizer_plain_run construct_optimizer tc model config h Hb).
Qed.

(** X9. [load_optimizer] constructs the outer optimizer at most once,
    from the configured specification: from the non-BERT and the BERT
    parameters (in this order) under BERT training and from the trainable
    parameters otherwise; a run that returns has constructed exactly the
    optimizer it returns, on the heap it was given. *)
Theorem load_optimizer_constructs_one_optimizer (h : heap) :
  let run := load_optimizer construct_optimizer tc model config h in
  let args := if use_bert_training tc
              then BertSplit (get_non_bert_parameters model)
                             (get_bert_parameters model)
              else Params (get_trainable_parameters model) in
  (List.length (optimizer_calls (emitted run)) <= 1)%nat /\
  (forall call, In call (optimizer_calls (emitted run)) ->
                call = (cfg_optimizer config, args)) /\
  (forall m o s, outcome run = Ok (m, o, s) ->
     optimizer_calls (emitted run) = [(cfg_optimizer config, args)] /\
     o = fst (construct_optimizer (cfg_optimizer config) args h)).
Proof.
  cbv zeta.
  destruct (load_optimizer_cases h) as [(Hb & _ & Hrun)|[(Hb & _ & _ & Hrun)|(Hb & Hrun)]];
    cbv zeta in Hrun; rewrite Hrun, Hb, outcome_run, emitted_run; simpl.
  - split; [lia|]. split; [intros call []|discriminate].
  - split; [lia|]. split; [intros call [<-|[]]; reflexivity|].
    intros m o s [= _ <- _]. split; reflexivity.
  - split; [lia|]. split; [intros call [<-|[]]; reflexivity|].
    intros m o s [= _ <- _]. split; reflexivity.
Qed.

(** X10. The parameter counts that [load_optimizer] writes to the log
    are checked ones: whenever it logs a BERT and a non-BERT count, BERT
    training is enabled, the two counts are the sizes of the two subsets,
    they add up to the number of parameters of the model, the BERT count
    is positive, and they are logged once. *)
Theorem load_optimizer_logs_checked_counts (h : heap) (b nb : nat) :
  let run := load_optimizer construct_optimizer tc model config h in
  In (b, nb) (param_counts_logged (emitted run)) ->
  use_bert_training tc = true /\
  b = List.length (get_bert_parameters model) /\
  nb = List.length (get_non_bert_parameters model) /\
  (nb + b)%nat = List.length (parameters model) /\
  (0 < b)%nat /\
  param_counts_logged (emitted run) = [(b, nb)].
Proof.
  cbv zeta.
  destruct (load_optimizer_cases h) as [(Hb & _ & Hrun)|[(Hb & Heq & Hpos & Hrun)|(Hb & Hrun)]];
    cbv zeta in Hrun; rewrite Hrun, emitted_run; simpl.
  - intros [].
  - intros [[= <- <-]|[]]. repeat split; assumption.
  - intros [].
Qed.

(** X11. Every scheduler built by [load_optimizer], the discarded one
    included, is built from the [lr_scheduler] entry of the run
    configuration, and from the no-op specification when the entry is
    missing; at most two schedulers are built. *)
Theorem load_optimizer_scheduler_spec_defaults_to_noop (h : heap) :
  let run := load_optimizer construct_optimizer tc model config h in
  Forall (fun s => sched_spec s =
                   match cfg_lr_scheduler config with
                   | Some sp => sp
                   | None => [("name", SStr "noop")]
                   end)
         (schedulers_built (emitted run)) /\
  (List.length (schedulers_built (emitted run)) <= 2)%nat.
Proof.
  cbv zeta.
  destruct (load_optimizer_cases h) as [(Hb & _ & Hrun)|[(Hb & _ & _ & Hrun)|(Hb & Hrun)]];
    cbv zeta in Hrun; rewrite Hrun, emitted_run; simpl;
    (split; [repeat constructor|lia]).
Qed.

(** X12. The BMAML trainer is created and moved to the device before
    anything else, on every run, with the inner learning rate, the
    first-order flag and the number of particles of the training
    configuration; so a run stopped by a failed check has already
    created it. *)
Theorem load_optimizer_creates_trainer_first (h : heap) :
  let run := load_optimizer construct_optimizer tc model config h in
  let maml := {| maml_inner_lr := inner_lr tc;
                 maml_first_order := first_order tc;
                 maml_num_particles := num_particles tc |} in
  (exists rest, emitted run = NewBMAML maml :: ToDevice :: rest) /\
  (forall e, outcome run = Raise e -> emitted run = [NewBMAML maml; ToDevice]) /\
  (forall m o s, outcome run = Ok (m, o, s) -> m = maml).
Proof.
  cbv zeta.
  destruct (load_optimizer_cases h) as [(Hb & _ & Hrun)|[(Hb & _ & _ & Hrun)|(Hb & Hrun)]];
    cbv zeta in Hrun; rewrite Hrun, outcome_run, emitted_run.
  - split; [eexists; reflexivity|]. split; [reflexivity|discriminate].
  - split; [eexists; reflexivity|]. split; [discriminate|].
    intros m o s [= <- _ _]. reflexivity.
  - split; [eexists; reflexivity|]. split; [discriminate|].
    intros m o s [= <- _ _]. reflexivity.
Qed.
End ConstructionExtras.

(** ** How the phases of a step compose *)

Section StepComposition.
Context {E batch : Type} (X : externals E batch).
Variables (tc : MetaTrainConfig) (last_step : Z) (enc ali dec : list pid).
Implicit Types (w : world E).

(** X13. The accumulation loop composes: [a + b] iterations are [a]
    iterations followed by [b] more that start from the world and the
    [loss] the first ones left, with the calls of the two runs in this
    order. *)
Theorem accumulate_splits (a b : nat) : forall (loss : option Q) w,
  accumulate X tc last_step enc ali dec (a + b) loss w =
  bind (accumulate X tc last_step enc ali dec a loss)
       (fun l => accumulate X tc last_step enc ali dec b l) w.
Proof.
  induction a as [|a IH]; intros loss w.
  - cbn [Nat.add accumulate]. unfold bind, ret.
    destruct (accumulate X tc last_step enc ali dec b loss w) as [[r s] t].
    reflexivity.
  - cbn [Nat.add accumulate]. unfold bind at 1 2 3 4 5.
    unfold call_get_batch, call_meta_train.
    destruct (get_batch X last_step (ext w)) as [[inner outer] e1].
    cbn [model_parameters groups ext].
    destruct (meta_train X enc ali dec inner outer (inner_opt tc)
                         (model_parameters w) e1) as [[l ps] e2].
    rewrite IH. unfold bind.
    destruct (accumulate X tc last_step enc ali dec a (Some l) _) as [[[r1|x1] s1] t1].
    + destruct (accumulate X tc last_step enc ali dec b r1 s1) as [[r2 s2] t2].
      simpl. rewrite <- ?app_assoc. reflexivity.
    + reflexivity.
Qed.

(** X14. The optimizer steps on the gradients as the clipping phase left
    them, with the groups the step started with, and the gradient reset
    works on what the optimizer step returned: the world before the
    learning-rate update is built in this order from the world the
    accumulation loop left. *)
Theorem optimizer_steps_on_clipped_gradients w :
  let w1 := final (accumulate X tc last_step enc ali dec
                              (Z.to_nat (num_batch_accumulated tc)) None
                              (final (init_grads (batch:=batch) w))) in
  let w2 := final (clip_bert_grad X tc w1) in
  let stepped := optimizer_step X (groups w) (model_parameters w2) (ext w1) in
  final (train_and_update X tc last_step enc ali dec w) =
  {| model_parameters := optimizer_zero_grad X (groups w) (fst stepped);
     groups := groups w;
     ext := snd stepped |}.
Proof.
  cbv zeta. unfold train_and_update. unfold bind at 1.
  unfold init_grads, modify. rewrite final_run.
  set (w0 := {| model_parameters := map zero_unset_grad (model_parameters w);
                groups := groups w; ext := ext w |}).
  destruct (accumulate_run X tc last_step enc ali dec
              (Z.to_nat (num_batch_accumulated tc)) None w0)
    as (w1 & t_acc & Hacc & _ & Hg1).
  unfold bind at 1. rewrite Hacc, final_run.
  destruct (clip_bert_grad_run X tc w1) as (w2 & Hclip & Hg2 & He2).
  unfold bind at 1. rewrite Hclip, final_run.
  unfold bind, call_optimizer_step, call_optimizer_zero_grad, ret.
  assert (Hg : groups w2 = groups w) by (rewrite Hg2, Hg1; reflexivity).
  rewrite Hg, He2.
  destruct (optimizer_step X (groups w) (model_parameters w2) (ext w1)) as [ps e3].
  reflexivity.
Qed.
End StepComposition.

(** ** The further properties on the sample run *)

Lemma step_report_failures_witness :
  report_every_n zero_interval_config = 0 /\
  outcome (step sample_externals zero_interval_config 10 [] [] [] sample_world)
    = Raise ZeroDivisionError /\
  filter is_report
         (emitted (step sample_externals zero_interval_config 10 [] [] []
                        sample_world)) = [] /\
  final (step sample_externals zero_interval_config 10 [] [] [] sample_world) =
    final (log_lr sample_externals 10
                  (final (train_and_update sample_externals zero_interval_config
                                           10 [] [] [] sample_world))).
Proof.
  assert (Hz : report_every_n zero_interval_config = 0) by reflexivity.
  split; [exact Hz|].
  destruct (step_report_failures
              sample_externals zero_interval_config 10 [] [] [] sample_world
              (or_introl Hz)) as (Hout & _ & Hsilent & Hfinal).
  split; [exact Hout|]. split; [exact Hsilent|exact Hfinal].
Defined.

Lemma step_logs_on_cadence_witness :
  0 < num_batch_accumulated sample_config /\
  report_every_n sample_config <> 0 /\
  10 mod report_every_n sample_config = 0 /\
  exists l,
    last_loss (emitted (step sample_externals sample_config 10 [] [] [] sample_world))
      = Some l /\
    logged (emitted (step sample_externals sample_config 10 [] [] [] sample_world)) =
      [LoggerInfo (StepLoss 10 l);
       LoggerInfo (StepLr 10 (1 # 100)%Q [(1 # 1000)%Q; (2 # 100000)%Q])].
Proof.
  assert (Hpos : 0 < num_batch_accumulated sample_config) by reflexivity.
  assert (Hn : report_every_n sample_config <> 0) by discriminate.
  assert (Hmod : 10 mod report_every_n sample_config = 0) by reflexivity.
  split; [exact Hpos|]. split; [exact Hn|]. split; [exact Hmod|].
  destruct (step_logs_on_cadence
              sample_externals sample_config 10 [] [] [] sample_world Hpos Hn)
    as (t_k & l_k & w_k & inner & outer & e1 & _ & _ & Hlast & Hon & _).
  eexists. split; [exact Hlast|]. exact (proj1 (Hon Hmod)).
Defined.

Lemma zero_threshold_is_silently_off_witness :
  clip_grad zero_clip_config = Some (0 # 1)%Q /\
  use_bert_training zero_clip_config = true /\
  infos (emitted (load_train_config zero_clip_config None)) = [] /\
  filter is_clip
         (emitted (step sample_externals zero_clip_config 10 [] [] [] sample_world))
    = [].
Proof.
  split; [reflexivity|]. split; [reflexivity|].
  apply (zero_threshold_is_silently_off
           sample_externals zero_clip_config 10 [] [] [] None sample_world
           (c := (0 # 1)%Q));
    reflexivity.
Defined.

Lemma load_optimizer_logs_checked_counts_witness :
  In (2, 1)%nat
     (param_counts_logged
        (emitted (load_optimizer sample_construct_optimizer sample_config
                                 sample_model sample_run_config []))) /\
  (1 + 2)%nat = List.length (parameters sample_model) /\
  param_counts_logged
    (emitted (load_optimizer sample_construct_optimizer sample_config
                             sample_model sample_run_config [])) = [(2, 1)%nat].
Proof.
  assert (Hin : In (2, 1)%nat
                   (param_counts_logged
                      (emitted (load_optimizer sample_construct_optimizer
                                               sample_config sample_model
                                               sample_run_config []))))
    by (left; reflexivity).
  split; [exact Hin|].
  destruct (load_optimizer_logs_checked_counts
              sample_construct_optimizer sample_config sample_model
              sample_run_config [] 2 1 Hin)
    as (_ & _ & _ & Hsum & _ & Honce).
  split; [exact Hsum|exact Honce].
Defined.
